(** * decky-loader: backend/injector.py

    A shallow embedding of the DevTools-protocol injector and the proofs of
    its specification.  The file follows the source top-down:

    - Python values as decoded from JSON, and the handful of Python
      operators the module applies to them ([in], [[]], [==], [str.format]);
    - the websocket of a tab as a scripted inbound stream together with a
      log of everything sent and received;
    - [class Tab] and its methods as computations over the tab object;
    - the module-level functions [get_tabs], [get_tab], [inject_to_tab],
      [tab_has_global_var], [tab_has_element];
    - the theorems. *)

From Stdlib Require Import ZArith String Ascii.
From Stdlib Require Import Floats.SpecFloat.
From stdpp Require Import gmap strings list sorting.

#[local] Set Warnings "-register-all".
#[local] Open Scope Z_scope.

(** * The program *)

(** ** Python values *)

(** What [json.loads] produces: [None], [bool], [int], [float], [str],
    [list] and [dict] with string keys.  A float is kept as the IEEE value
    it denotes (sign, mantissa, exponent), which is all that Python's exact
    [int]/[float] comparison looks at. *)
Inductive json : Type :=
  | JNull
  | JBool (b : bool)
  | JInt (n : Z)
  | JFloat (f : spec_float)
  | JStr (s : string)
  | JArr (l : list json)
  | JObj (o : gmap string json).

(** The exceptions the module raises itself (with their message) and the
    ones raised underneath it by the interpreter or by aiohttp.
    [JSONDecodeError] is a subclass of [ValueError];
    [Unsupported] marks a use of a Python feature outside the fragment
    embedded here (format specifications and conversions of [str.format]). *)
Inductive exn : Type :=
  | Exception (msg : string)
  | ValueError (msg : string)
  | RuntimeError (msg : string)
  | JSONDecodeError
  | TypeError
  | KeyError (key : string)
  | IndexError
  | AttributeError
  | ClientConnectorError
  | ClientError
  | ConnectionResetError
  | Unsupported.

(** [except ValueError] *)
Definition is_ValueError (e : exn) : bool :=
  match e with
  | ValueError _ | JSONDecodeError => true
  | _ => false
  end.

(** [except ClientConnectorError] *)
Definition is_ClientConnectorError (e : exn) : bool :=
  match e with
  | ClientConnectorError => true
  | _ => false
  end.

(** A Python expression: a value or an exception. *)
Inductive result (A : Type) : Type :=
  | Ok (a : A)
  | Err (e : exn).
Arguments Ok {A} a.
Arguments Err {A} e.

(** [float == int]: Python compares the two exactly. *)
Definition float_eq_int (f : spec_float) (n : Z) : bool :=
  match f with
  | S754_zero _ => n =? 0
  | S754_finite s m e =>
      let v := if s then Z.neg m else Z.pos m in
      if 0 <=? e then v * 2 ^ e =? n else v =? n * 2 ^ (- e)
  | S754_infinity _ | S754_nan => false
  end.

(** [v == n] for an [int] n: [bool] is a subclass of [int] ([True == 1]),
    a float is compared by value, every other type is unequal. *)
Definition py_eq_int (v : json) (n : Z) : bool :=
  match v with
  | JInt k => k =? n
  | JBool b => (if b then 1 else 0) =? n
  | JFloat f => float_eq_int f n
  | _ => false
  end.

(** [v == s] for a [str] s. *)
Definition py_eq_str (v : json) (s : string) : bool :=
  match v with
  | JStr s' => bool_decide (s' = s)
  | _ => false
  end.

(** [k in s] on strings: substring test. *)
Definition str_contains (k s : string) : bool :=
  match String.index 0 k s with
  | Some _ => true
  | None => false
  end.

(** [k in v] for a [str] k: key membership on a dict, element membership on
    a list, substring on a string; the other types are not iterable. *)
Definition py_in (k : string) (v : json) : result bool :=
  match v with
  | JObj o => Ok (match o !! k with Some _ => true | None => false end)
  | JArr l => Ok (existsb (fun x => py_eq_str x k) l)
  | JStr s => Ok (str_contains k s)
  | JNull | JBool _ | JInt _ | JFloat _ => Err TypeError
  end.

(** [v[k]] for a [str] k: only a dict can be indexed by a string. *)
Definition py_getitem (v : json) (k : string) : result json :=
  match v with
  | JObj o =>
      match o !! k with
      | Some x => Ok x
      | None => Err (KeyError k)
      end
  | _ => Err TypeError
  end.

(** [for i in v]: the elements of a list, the keys of a dict, the
    characters of a string. *)
Definition py_iter (v : json) : result (list json) :=
  match v with
  | JArr l => Ok l
  | JObj o => Ok ((fun kv => JStr (fst kv)) <$> map_to_list o)
  | JStr s => Ok ((fun c => JStr (String c EmptyString)) <$> list_ascii_of_string s)
  | JNull | JBool _ | JInt _ | JFloat _ => Err TypeError
  end.

(** ** [str.format] with keyword arguments

    The scanner of CPython's [MarkupIterator_next] and [parse_field], for
    string-valued keyword arguments and no positional ones.  A doubled brace
    is a literal brace; a single opening brace starts a replacement field
    whose name runs to the closing brace; an opening brace inside a field
    name is an error, as is a lone closing brace. *)
Inductive fmt_mode : Type :=
  | InText
  | InField (name : string)
  | InIndex (name : string).

Definition snoc (s : string) (c : ascii) : string := s +:+ String c EmptyString.

Definition is_digit (c : ascii) : bool :=
  let n := nat_of_ascii c in (48 <=? n)%nat && (n <=? 57)%nat.

(** [kwargs[name]] *)
Definition kwarg (kwargs : list (string * string)) (name : string) : option string :=
  snd <$> List.find (fun kv => bool_decide (fst kv = name)) kwargs.

(** The object a field name refers to: an empty or numeric name is a
    positional argument (there is none), a name with [.] or [[] accesses an
    attribute or an item, anything else is a keyword. *)
Definition get_field (kwargs : list (string * string)) (name : string) : result string :=
  let cs := list_ascii_of_string name in
  if existsb (fun c => bool_decide (c = "."%char) || bool_decide (c = "["%char)) cs
  then Err Unsupported
  else if forallb is_digit cs then Err IndexError
  else match kwarg kwargs name with
       | Some v => Ok v
       | None => Err (KeyError name)
       end.

Fixpoint format_scan (kwargs : list (string * string)) (mode : fmt_mode)
    (s : string) (out : string) : result string :=
  match mode, s with
  | InText, EmptyString => Ok out
  | InText, String "{" EmptyString =>
      Err (ValueError "Single '{' encountered in format string")
  | InText, String "{" (String "{" rest) =>
      format_scan kwargs InText rest (snoc out "{")
  | InText, String "{" rest =>
      format_scan kwargs (InField "") rest out
  | InText, String "}" (String "}" rest) =>
      format_scan kwargs InText rest (snoc out "}")
  | InText, String "}" _ =>
      Err (ValueError "Single '}' encountered in format string")
  | InText, String c rest =>
      format_scan kwargs InText rest (snoc out c)
  | InField _, EmptyString | InIndex _, EmptyString =>
      Err (ValueError "expected '}' before end of string")
  | InField _, String "{" _ =>
      Err (ValueError "unexpected '{' in field name")
  | InField name, String "[" rest =>
      format_scan kwargs (InIndex (snoc name "[")) rest out
  | InField name, String "}" rest =>
      match get_field kwargs name with
      | Ok v => format_scan kwargs InText rest (out +:+ v)
      | Err e => Err e
      end
  | InField _, String ":" _ | InField _, String "!" _ => Err Unsupported
  | InField name, String c rest =>
      format_scan kwargs (InField (snoc name c)) rest out
  | InIndex name, String "]" rest =>
      format_scan kwargs (InField (snoc name "]")) rest out
  | InIndex name, String c rest =>
      format_scan kwargs (InIndex (snoc name c)) rest out
  end.

(** [template.format(k1=v1, ...)] *)
Definition str_format (template : string) (kwargs : list (string * string)) : result string :=
  format_scan kwargs InText template "".

#[local] Instance result_ret : MRet result := fun _ a => Ok a.
#[local] Instance result_bind : MBind result := fun _ _ k r =>
  match r with
  | Ok a => k a
  | Err e => Err e
  end.

(** A list comprehension whose element expression can raise: the first
    exception ends it. *)
Fixpoint comprehension {A B : Type} (f : A -> result B) (l : list A) : result (list B) :=
  match l with
  | [] => Ok []
  | x :: l' => y ← f x; ys ← comprehension f l'; Ok (y :: ys)
  end.

(** ** The host: the debugger endpoint as seen from the client *)

(** The response object of [web.get]: [res.status], [await res.text()] and
    [await res.json()]. *)
Record http_response : Type := {
  status : Z;
  resp_text : string;
  resp_json : result json
}.

(** What follows the last scripted frame of a websocket: the close of the
    connection, or nothing, ever. *)
Inductive ending : Type :=
  | Closed
  | Silent.

(** The host: the outcome of the k-th [GET /json] (an exception of the
    client library or a response), and, for a debugger URL, the frames the
    host will deliver on a websocket opened there, JSON-decoded, in order. *)
Record host : Type := {
  http_get : nat -> result http_response;
  ws_connect : json -> list json * ending
}.

(** Input and output on one websocket, in the order it happened. *)
Inductive io : Type :=
  | Sent (dc : gmap string json)
  | Received (msg : json).

(** [ClientWebSocketResponse]: the frames not yet read, what follows them,
    whether the connection is closed, and the log. *)
Record websocket_t : Type := {
  ws_inbound : list json;
  ws_end : ending;
  ws_closed : bool;
  ws_log : list io
}.

(** [ClientSession] *)
Record client_t : Type := {
  session_closed : bool
}.

(** What the module does outside a websocket. *)
Inductive effect : Type :=
  | HttpGet (url : string)
  | Sleep (seconds : Z).

(** ** [class Tab] *)

Definition BASE_ADDRESS : string := "http://localhost:8080".

(** The class attribute [cmd_id = 0] of line 16.  Nothing assigns to it:
    [self.cmd_id += 1] reads it through the instance while the instance has
    no attribute of its own, and writes the instance. *)
Definition Tab_cmd_id : Z := 0.

(** A [Tab] object; [cmd_id] is the instance attribute, absent until the
    first command. *)
Record Tab : Type := {
  title : json;
  id : json;
  ws_url : json;
  websocket : option websocket_t;
  client : option client_t;
  cmd_id : option Z
}.

(** [self.cmd_id] *)
Definition read_cmd_id (self : Tab) : Z := default Tab_cmd_id (cmd_id self).

Definition set_websocket (w : option websocket_t) (self : Tab) : Tab :=
  {| title := title self; id := id self; ws_url := ws_url self;
     websocket := w; client := client self; cmd_id := cmd_id self |}.

Definition set_client (c : option client_t) (self : Tab) : Tab :=
  {| title := title self; id := id self; ws_url := ws_url self;
     websocket := websocket self; client := c; cmd_id := cmd_id self |}.

Definition set_cmd_id (n : Z) (self : Tab) : Tab :=
  {| title := title self; id := id self; ws_url := ws_url self;
     websocket := websocket self; client := client self; cmd_id := Some n |}.

(** [Tab.__init__] *)
Definition Tab_init (res : json) : result Tab :=
  t ← py_getitem res "title";
  i ← py_getitem res "id";
  u ← py_getitem res "webSocketDebuggerUrl";
  Ok {| title := t; id := i; ws_url := u;
        websocket := None; client := None; cmd_id := None |}.

(** *** Methods: computations on [self] *)

(** How a coroutine ends: it returns, raises, or stays suspended for ever
    on a read that nothing answers. *)
Inductive outcome (A : Type) : Type :=
  | Ret (a : A)
  | Raise (e : exn)
  | Hang.
Arguments Ret {A} a.
Arguments Raise {A} e.
Arguments Hang {A}.

(** A method body: from the tab object to how it ends and the object as it
    then is.  An exception or a suspension keeps the state reached. *)
Definition M (A : Type) : Type := Tab -> outcome A * Tab.

Definition ret {A : Type} (a : A) : M A := fun self => (Ret a, self).

Definition raise {A : Type} (e : exn) : M A := fun self => (Raise e, self).

Definition bind {A B : Type} (m : M A) (k : A -> M B) : M B := fun self =>
  match m self with
  | (Ret a, self') => k a self'
  | (Raise e, self') => (Raise e, self')
  | (Hang, self') => (Hang, self')
  end.

Definition of_result {A : Type} (r : result A) : M A :=
  match r with
  | Ok a => ret a
  | Err e => raise e
  end.

Definition get_self : M Tab := fun self => (Ret self, self).

Definition update (f : Tab -> Tab) : M unit := fun self => (Ret tt, f self).

Notation "'let*' x ':=' m 'in' k" := (bind m (fun x => k))
  (at level 10, x name, m at level 200, k at level 200).
Notation "m ';;' k" := (bind m (fun _ => k))
  (at level 100, k at level 200, right associativity).

(** [for x in range(n): body] *)
Fixpoint for_range (n : nat) (body : M unit) : M unit :=
  match n with
  | O => ret tt
  | S n' => body ;; for_range n' body
  end.

(** [open_websocket]: a new client session and its connection to
    [self.ws_url], on which the host will deliver its frames.  The host is
    taken to accept the connection. *)
Definition open_websocket (h : host) : M unit :=
  update (set_client (Some {| session_closed := false |})) ;;
  let* self := get_self in
  let (frames, e) := ws_connect h (ws_url self) in
  update (set_websocket (Some {| ws_inbound := frames; ws_end := e;
                                 ws_closed := false; ws_log := [] |})).

Definition shut (w : websocket_t) : websocket_t :=
  {| ws_inbound := ws_inbound w; ws_end := ws_end w;
     ws_closed := true; ws_log := ws_log w |}.

(** [close_websocket]: [self.client.close()], which closes the session's
    connection with it; [self.websocket] keeps referring to the closed
    connection. *)
Definition close_websocket : M unit :=
  let* self := get_self in
  match client self with
  | Some _ =>
      update (set_client (Some {| session_closed := true |})) ;;
      update (set_websocket (shut <$> websocket self))
  | None => raise AttributeError
  end.

(** [self.websocket.send_json(dc)]: writing to a closed connection fails. *)
Definition send_json (dc : gmap string json) : M unit :=
  let* self := get_self in
  match websocket self with
  | Some w =>
      if ws_closed w then raise ConnectionResetError
      else update (set_websocket (Some {| ws_inbound := ws_inbound w; ws_end := ws_end w;
                                          ws_closed := false;
                                          ws_log := ws_log w ++ [Sent dc] |}))
  | None => raise AttributeError
  end.

(** The test of line 45, [["id" in msg and msg["id"] == dc["id"]]], where
    [dc["id"]] is the integer [n] assigned on line 41. *)
Definition is_reply (n : Z) (msg : json) : result bool :=
  has ← py_in "id" msg;
  if (has : bool) then v ← py_getitem msg "id"; Ok (py_eq_int v n) else Ok false.

(** [listen_for_message] consumed by the loop of lines 44-46: each frame
    read leaves the stream and enters the log; the first one that passes
    the test is returned.  When the host closes the connection the
    generator is exhausted and the method falls through to [return None];
    when the host stays silent the read never completes. *)
Fixpoint listen_for_message (n : Z) (frames : list json) (w : websocket_t)
    : outcome json * websocket_t :=
  match frames with
  | [] =>
      match ws_end w with
      | Closed => (Ret JNull, {| ws_inbound := []; ws_end := ws_end w;
                                 ws_closed := true; ws_log := ws_log w |})
      | Silent => (Hang, {| ws_inbound := []; ws_end := ws_end w;
                            ws_closed := ws_closed w; ws_log := ws_log w |})
      end
  | msg :: rest =>
      let w' := {| ws_inbound := rest; ws_end := ws_end w;
                   ws_closed := ws_closed w;
                   ws_log := ws_log w ++ [Received msg] |} in
      match is_reply n msg with
      | Err e => (Raise e, w')
      | Ok true => (Ret msg, w')
      | Ok false => listen_for_message n rest w'
      end
  end.

(** Lines 43-47 on the tab: a closed connection yields nothing at all. *)
Definition await_reply (n : Z) : M json := fun self =>
  match websocket self with
  | Some w =>
      if ws_closed w then (Ret JNull, self)
      else let (r, w') := listen_for_message n (ws_inbound w) w in
           (r, set_websocket (Some w') self)
  | None => (Raise AttributeError, self)
  end.

(** [_send_devtools_cmd].  [if self.websocket:] tests the attribute against
    [None]: a connection object is true whether open or closed. *)
Definition _send_devtools_cmd (dc : gmap string json) (receive : bool) : M json :=
  let* self := get_self in
  match websocket self with
  | Some _ =>
      update (fun self => set_cmd_id (read_cmd_id self + 1) self) ;;
      let* self := get_self in
      let dc := <["id" := JInt (read_cmd_id self)]> dc in
      send_json dc ;;
      if receive then await_reply (read_cmd_id self) else ret JNull
  | None => raise (RuntimeError "Websocket not opened")
  end.

(** A dict display (with distinct keys). *)
Definition dict (items : list (string * json)) : gmap string json := list_to_map items.

(** [evaluate_js] *)
Definition evaluate_js (h : host) (js : string)
    (run_async manage_socket get_result : bool) : M json :=
  (if manage_socket then open_websocket h else ret tt) ;;
  let* res := _send_devtools_cmd (dict [
      ("method", JStr "Runtime.evaluate");
      ("params", JObj (dict [
          ("expression", JStr js);
          ("userGesture", JBool true);
          ("awaitPromise", JBool run_async)]))]) get_result in
  (if manage_socket then close_websocket else ret tt) ;;
  ret res.

(** [enable] *)
Definition enable : M unit :=
  _send_devtools_cmd (dict [("method", JStr "Page.enable")]) false ;;
  ret tt.

(** [disable] *)
Definition disable : M unit :=
  _send_devtools_cmd (dict [("method", JStr "Page.disable")]) false ;;
  ret tt.

(** [reload_and_evaluate].  The subscript of lines 123-125 is evaluated
    before the call it is an argument of; [logger.info] has no effect on the
    tab. *)
Definition reload_and_evaluate (h : host) (js : string) (manage_socket : bool) : M unit :=
  (if manage_socket then open_websocket h else ret tt) ;;
  _send_devtools_cmd (dict [("method", JStr "Debugger.enable")]) true ;;
  let* breakpoint_res := _send_devtools_cmd (dict [
      ("method", JStr "Debugger.setInstrumentationBreakpoint");
      ("params", JObj (dict [
          ("instrumentation", JStr "beforeScriptExecution")]))]) true in
  _send_devtools_cmd (dict [("method", JStr "Page.reload")]) true ;;
  for_range 3 (
    _send_devtools_cmd (dict [
      ("method", JStr "Runtime.evaluate");
      ("params", JObj (dict [
          ("expression", JStr js);
          ("userGesture", JBool true);
          ("awaitPromise", JBool false)]))]) false ;;
    ret tt) ;;
  let* breakpointId :=
    of_result (r ← py_getitem breakpoint_res "result"; py_getitem r "breakpointId") in
  _send_devtools_cmd (dict [
      ("method", JStr "Debugger.removeBreakpoint");
      ("params", JObj (dict [("breakpointId", breakpointId)]))]) true ;;
  _send_devtools_cmd (dict [("method", JStr "Debugger.resume")]) true ;;
  _send_devtools_cmd (dict [("method", JStr "Debugger.disable")]) true ;;
  (if manage_socket then close_websocket else ret tt) ;;
  ret tt.

(** The template of lines 174-185, between its triple quotes. *)
Definition wrapper_template : string :=
"
        function scriptFunc() {
            {js}
        }
        if (document.readyState === 'loading') {
            addEventListener('DOMContentLoaded', () => {
            scriptFunc();
        });
        } else {
            scriptFunc();
        }
        ".

(** [add_script_to_evaluate_on_new_document] *)
Definition add_script_to_evaluate_on_new_document (h : host) (js : string)
    (add_dom_wrapper manage_socket get_result : bool) : M json :=
  let* wrappedjs :=
    (if add_dom_wrapper then of_result (str_format wrapper_template [("js", js)])
     else ret js) in
  (if manage_socket then open_websocket h else ret tt) ;;
  let* res := _send_devtools_cmd (dict [
      ("method", JStr "Page.addScriptToEvaluateOnNewDocument");
      ("params", JObj (dict [("source", JStr wrappedjs)]))]) get_result in
  (if manage_socket then close_websocket else ret tt) ;;
  ret res.

(** [remove_script_to_evaluate_on_new_document] *)
Definition remove_script_to_evaluate_on_new_document (h : host) (script_id : json)
    (manage_socket : bool) : M unit :=
  (if manage_socket then open_websocket h else ret tt) ;;
  _send_devtools_cmd (dict [
      ("method", JStr "Page.removeScriptToEvaluateOnNewDocument");
      ("params", JObj (dict [("identifier", script_id)]))]) false ;;
  (if manage_socket then close_websocket else ret tt) ;;
  ret tt.

(** [get_steam_resource]; the expression quotes the URL with the
    character of code 34. *)
Definition get_steam_resource (h : host) (url : string) : M json :=
  let* res := evaluate_js h
    ("(async function test() { return await (await fetch("
       +:+ String "034" url +:+ String "034" ")).text() })()")
    true true true in
  of_result (r1 ← py_getitem res "result"; r2 ← py_getitem r1 "result";
             py_getitem r2 "value").

(** ** Module-level functions *)

(** The loop of lines 236-245.  [attempt] counts the calls of [web.get]
    made so far; [fuel] bounds the iterations, [None] meaning that it ran
    out. *)
Fixpoint get_tabs_loop (h : host) (fuel attempt : nat) (trace : list effect)
    : option (result http_response * list effect) :=
  match fuel with
  | O => None
  | S fuel' =>
      let trace := trace ++ [HttpGet (BASE_ADDRESS +:+ "/json")] in
      match http_get h attempt with
      | Err e =>
          if is_ClientConnectorError e
          then get_tabs_loop h fuel' (S attempt) (trace ++ [Sleep 5])
          else Some (Err e, trace)
      | Ok res => Some (Ok res, trace)
      end
  end.

(** Lines 247-251: the tabs of a response. *)
Definition tabs_of_response (res : http_response) : result (list Tab) :=
  if status res =? 200 then
    r ← resp_json res;
    entries ← py_iter r;
    comprehension Tab_init entries
  else
    Err (Exception ("/json did not return 200. " +:+ resp_text res)).

(** [get_tabs] *)
Definition get_tabs (h : host) (fuel : nat) : option (result (list Tab) * list effect) :=
  match get_tabs_loop h fuel 0 [] with
  | None => None
  | Some (Err e, trace) => Some (Err e, trace)
  | Some (Ok res, trace) => Some (tabs_of_response res, trace)
  end.

(** [next((i for i in tabs if i.title == tab_name), None)] *)
Definition first_titled (tab_name : string) (tabs : list Tab) : option Tab :=
  List.find (fun i => py_eq_str (title i) tab_name) tabs.

(** [get_tab] *)
Definition get_tab (h : host) (tab_name : string) (fuel : nat)
    : option (result Tab * list effect) :=
  match get_tabs h fuel with
  | None => None
  | Some (Err e, trace) => Some (Err e, trace)
  | Some (Ok tabs, trace) =>
      match first_titled tab_name tabs with
      | Some tab => Some (Ok tab, trace)
      | None => Some (Err (ValueError ("Tab " +:+ tab_name +:+ " not found")), trace)
      end
  end.

(** [inject_to_tab] *)
Definition inject_to_tab (h : host) (tab_name js : string) (run_async : bool) (fuel : nat)
    : option (outcome json * list effect) :=
  match get_tab h tab_name fuel with
  | None => None
  | Some (Err e, trace) => Some (Raise e, trace)
  | Some (Ok tab, trace) => Some (fst (evaluate_js h js run_async true true tab), trace)
  end.

(** Lines 275-278 and 288-291: the value under [result.result.value], or
    [False] when a key is not there. *)
Definition result_value (res : json) : result json :=
  a ← py_in "result" res;
  if negb a then Ok (JBool false) else
  r1 ← py_getitem res "result";
  b ← py_in "result" r1;
  if negb b then Ok (JBool false) else
  r1 ← py_getitem res "result";
  r2 ← py_getitem r1 "result";
  c ← py_in "value" r2;
  if negb c then Ok (JBool false) else
  r1 ← py_getitem res "result";
  r2 ← py_getitem r1 "result";
  py_getitem r2 "value".

(** [tab_has_global_var] *)
Definition tab_has_global_var (h : host) (tab_name var_name : string) (fuel : nat)
    : option (outcome json * list effect) :=
  match get_tab h tab_name fuel with
  | None => None
  | Some (Err e, trace) =>
      if is_ValueError e then Some (Ret (JBool false), trace)
      else Some (Raise e, trace)
  | Some (Ok tab, trace) =>
      Some (fst ((let* res := evaluate_js h
                    ("window['" +:+ var_name +:+ "'] !== null && window['"
                       +:+ var_name +:+ "'] !== undefined")
                    false true true in
                  of_result (result_value res)) tab), trace)
  end.

(** [tab_has_element] *)
Definition tab_has_element (h : host) (tab_name element_name : string) (fuel : nat)
    : option (outcome json * list effect) :=
  match get_tab h tab_name fuel with
  | None => None
  | Some (Err e, trace) =>
      if is_ValueError e then Some (Ret (JBool false), trace)
      else Some (Raise e, trace)
  | Some (Ok tab, trace) =>
      Some (fst ((let* res := evaluate_js h
                    ("document.getElementById('" +:+ element_name +:+ "') != null")
                    false true true in
                  of_result (result_value res)) tab), trace)
  end.

(** * Vocabulary of the specification *)

(** ** Messages and streams *)

(** An inbound message that is not the response to command [n]: an event
    (an object without [id]) or an object that carries another id. *)
Definition unsolicited (n : Z) (msg : json) : bool :=
  match msg with
  | JObj o =>
      match o !! "id" with
      | None => true
      | Some v => negb (py_eq_int v n)
      end
  | _ => false
  end.

(** An inbound message whose id equals [n]. *)
Definition responds_to (n : Z) (msg : json) : bool :=
  match msg with
  | JObj o =>
      match o !! "id" with
      | Some v => py_eq_int v n
      | None => false
      end
  | _ => false
  end.

(** The host answers command [n] with [reply], after [noise]. *)
Definition answered (n : Z) (noise : list json) (reply : json) : Prop :=
  Forall (fun m => unsolicited n m = true) noise /\ responds_to n reply = true.

(** The inbound stream cut at the responses: before the response to the
    command numbered [n + 1] come only messages unsolicited for it, and so
    on for the commands after it. *)
Fixpoint interleaved (n : Z) (segs : list (list json * json)) : Prop :=
  match segs with
  | [] => True
  | (noise, reply) :: segs' =>
      Forall (fun m => unsolicited (n + 1) m = true) noise /\
      responds_to (n + 1) reply = true /\
      interleaved (n + 1) segs'
  end.

Definition stream (segs : list (list json * json)) : list json :=
  concat ((fun s => fst s ++ [snd s]) <$> segs).

(** [reply["result"]["breakpointId"]] of a well-formed response. *)
Definition breakpoint_of (reply : json) : option json :=
  match reply with
  | JObj o =>
      match o !! "result" with
      | Some (JObj r) => r !! "breakpointId"
      | _ => None
      end
  | _ => None
  end.

(** The value under [result.result.value] of a response object, when each
    key is there. *)
Definition value_at (o : gmap string json) : option json :=
  match o !! "result" with
  | Some (JObj r1) =>
      match r1 !! "result" with
      | Some (JObj r2) => r2 !! "value"
      | _ => None
      end
  | _ => None
  end.

(** What lies on the path, as far as it goes, is an object. *)
Definition object_path (o : gmap string json) : bool :=
  match o !! "result" with
  | None => true
  | Some (JObj r1) =>
      match r1 !! "result" with
      | None | Some (JObj _) => true
      | Some _ => false
      end
  | Some _ => false
  end.

(** ** Tabs, connections and logs *)

(** The tab after a command: its counter and its connection. *)
Definition session (self : Tab) (n : Z) (w : websocket_t) : Tab :=
  set_websocket (Some w) (set_cmd_id n self).

(** [dc] with the id the session assigned. *)
Definition numbered (n : Z) (dc : gmap string json) : gmap string json :=
  <["id" := JInt n]> dc.

(** The connection after the frames [read] were taken off a stream that
    continues with [rest]. *)
Definition advanced (w : websocket_t) (sent : list io) (read rest : list json)
    : websocket_t :=
  {| ws_inbound := rest; ws_end := ws_end w; ws_closed := ws_closed w;
     ws_log := ws_log w ++ sent ++ (Received <$> read) |}.

(** The tab on which a method with a [manage_socket] flag sends: the one it
    was given, or that one with a connection just opened. *)
Definition entered (h : host) (manage_socket : bool) (self : Tab) : Tab :=
  if manage_socket then snd (open_websocket h self) else self.

(** The [id] entries of the commands written to a connection, in order. *)
Definition sent_id (e : io) : option (option json) :=
  match e with
  | Sent dc => Some (dc !! "id")
  | Received _ => None
  end.

Definition sent_ids (log : list io) : list (option json) := omap sent_id log.

(** The commands among the entries of a log. *)
Definition commands (log : list io) : list (gmap string json) :=
  omap (fun e => match e with Sent dc => Some dc | Received _ => None end) log.

(** The ids written so far are integers in strictly increasing order, all
    above [lo] and none above the counter. *)
Definition ids_increasing (lo : Z) (self : Tab) : Prop :=
  forall w, websocket self = Some w ->
  exists ids : list Z,
    sent_ids (ws_log w) = (fun i => Some (JInt i)) <$> ids /\
    StronglySorted Z.lt ids /\
    Forall (fun i => lo < i <= read_cmd_id self) ids.

(** ** Callers *)

(** A caller that sends its commands one after the other, awaiting each
    response. *)
Fixpoint send_each (cmds : list (gmap string json)) : M (list json) :=
  match cmds with
  | [] => ret []
  | dc :: cmds' =>
      let* r := _send_devtools_cmd dc true in
      let* rs := send_each cmds' in
      ret (r :: rs)
  end.

(** A caller that issues any commands, awaited or not, and goes on after a
    command that raised; a command that never returns ends the run. *)
Fixpoint run_calls (calls : list (gmap string json * bool)) (self : Tab) : Tab :=
  match calls with
  | [] => self
  | (dc, receive) :: calls' =>
      match _send_devtools_cmd dc receive self with
      | (Hang, self') => self'
      | (_, self') => run_calls calls' self'
      end
  end.

(** ** The commands of the reload workflow *)

(** The commands of the workflow, as written on lines 90-134. *)
Definition debugger_enable : gmap string json :=
  dict [("method", JStr "Debugger.enable")].

Definition set_breakpoint : gmap string json :=
  dict [("method", JStr "Debugger.setInstrumentationBreakpoint");
        ("params", JObj (dict [("instrumentation", JStr "beforeScriptExecution")]))].

Definition page_reload : gmap string json :=
  dict [("method", JStr "Page.reload")].

Definition runtime_evaluate (js : string) : gmap string json :=
  dict [("method", JStr "Runtime.evaluate");
        ("params", JObj (dict [("expression", JStr js);
                               ("userGesture", JBool true);
                               ("awaitPromise", JBool false)]))].

Definition remove_breakpoint (bp : json) : gmap string json :=
  dict [("method", JStr "Debugger.removeBreakpoint");
        ("params", JObj (dict [("breakpointId", bp)]))].

Definition debugger_resume : gmap string json :=
  dict [("method", JStr "Debugger.resume")].

Definition debugger_disable : gmap string json :=
  dict [("method", JStr "Debugger.disable")].

(** ** Discovery *)

(** What the client does when the host refuses [n] connections and
    accepts the next: a request and a sleep of 5 seconds per refusal, then
    the request that gets through. *)
Definition retry_trace (n : nat) : list effect :=
  concat (replicate n [HttpGet "http://localhost:8080/json"; Sleep 5])
  ++ [HttpGet "http://localhost:8080/json"].

(** The sleeps of a trace, in seconds. *)
Definition sleeps (trace : list effect) : list Z :=
  omap (fun e => match e with Sleep t => Some t | HttpGet _ => None end) trace.

(** The host refuses the first [n] connections and answers the next one
    with [res]. *)
Definition reachable_after (h : host) (n : nat) (res : http_response) : Prop :=
  (forall k, (k < n)%nat -> http_get h k = Err ClientConnectorError) /\
  http_get h n = Ok res.

(** An entry of the listing and the [Tab] built from it: the entry is an
    object with the three fields, which the tab copies; the tab has no
    connection yet and no counter of its own. *)
Definition describes (entry : json) (tab : Tab) : Prop :=
  exists o : gmap string json,
    entry = JObj o /\
    o !! "title" = Some (title tab) /\
    o !! "id" = Some (id tab) /\
    o !! "webSocketDebuggerUrl" = Some (ws_url tab) /\
    websocket tab = None /\ client tab = None /\ cmd_id tab = None.

(** The contract of [GET /json]: the body of a 200 response is a JSON
    array of tab descriptors. *)
Definition listing_ok (res : http_response) : Prop :=
  status res = 200 ->
  exists entries tabs, resp_json res = Ok (JArr entries) /\ Forall2 describes entries tabs.

Definition raises {A : Type} (r : option (result A * list effect)) : Prop :=
  exists e trace, r = Some (Err e, trace).

(** ** Example tabs and hosts *)

Definition descriptor (t i : string) : json :=
  JObj (dict [("title", JStr t); ("id", JStr i);
              ("webSocketDebuggerUrl", JStr ("ws://localhost:8080/" +:+ i))]).

Definition listed (t i : string) : Tab :=
  {| title := JStr t; id := JStr i; ws_url := JStr ("ws://localhost:8080/" +:+ i);
     websocket := None; client := None; cmd_id := None |}.

Definition blank_tab (w : option websocket_t) : Tab :=
  {| title := JStr "SP"; id := JStr "0"; ws_url := JStr "ws://localhost:8080/0";
     websocket := w; client := None; cmd_id := None |}.

(** An open connection on which the host answers the first command after
    an event and a stale response, and the second one at once. *)
Definition two_replies : websocket_t :=
  {| ws_inbound :=
       [JObj (dict [("method", JStr "Debugger.paused")]);
        JObj (dict [("id", JInt 7); ("result", JObj (dict []))]);
        JObj (dict [("id", JInt 1); ("result", JStr "first")]);
        JObj (dict [("id", JInt 2); ("result", JStr "second")]);
        JObj (dict [("method", JStr "Page.loaded")])];
     ws_end := Silent; ws_closed := false; ws_log := [] |}.

(** A host that answers the listing with one tab and every command on its
    websocket at once, up to the third. *)
Definition prompt_host : host :=
  {| http_get := fun _ =>
       Ok {| status := 200; resp_text := "";
             resp_json := Ok (JArr [JObj (dict [
               ("title", JStr "SP"); ("id", JStr "0");
               ("webSocketDebuggerUrl", JStr "ws://localhost:8080/0")])]) |};
     ws_connect := fun _ =>
       ([JObj (dict [("id", JInt 1); ("result", JObj (dict []))]);
         JObj (dict [("id", JInt 2); ("result", JObj (dict []))]);
         JObj (dict [("id", JInt 3); ("result", JObj (dict []))])], Closed) |}.

(** A host that answers the listing with status 500. *)
Definition failing_host : host :=
  {| http_get := fun _ =>
       Ok {| status := 500; resp_text := "internal error";
             resp_json := Err JSONDecodeError |};
     ws_connect := fun _ => ([], Closed) |}.

(** A host that refuses two connections and then lists no tab. *)
Definition late_host : host :=
  {| http_get := fun k =>
       match k with
       | 0%nat | 1%nat => Err ClientConnectorError
       | _ => Ok {| status := 200; resp_text := "[]"; resp_json := Ok (JArr []) |}
       end;
     ws_connect := fun _ => ([], Closed) |}.

(** A host whose listing has the titles A, B, A. *)
Definition aba_host : host :=
  {| http_get := fun _ =>
       Ok {| status := 200; resp_text := "";
             resp_json := Ok (JArr [descriptor "A" "1"; descriptor "B" "2";
                                    descriptor "A" "3"]) |};
     ws_connect := fun _ => ([], Closed) |}.

(** A host that lists the one tab Tab1 and delivers [frames] on its
    websocket before closing it. *)
Definition tab1_host (frames : list json) : host :=
  {| http_get := fun _ =>
       Ok {| status := 200; resp_text := "";
             resp_json := Ok (JArr [descriptor "Tab1" "1"]) |};
     ws_connect := fun _ => (frames, Closed) |}.

Definition value_response (v : json) : gmap string json :=
  dict [("id", JInt 1);
        ("result", JObj (dict [("result", JObj (dict [("value", v)]))]))].

(** An open connection on which the host sends an event and a stale
    response, and then closes. *)
Definition closing_socket : websocket_t :=
  {| ws_inbound :=
       [JObj (dict [("method", JStr "Page.frameNavigated")]);
        JObj (dict [("id", JInt 7); ("result", JObj (dict []))])];
     ws_end := Closed; ws_closed := false; ws_log := [] |}.

(** The response to command [n] with the given [result]. *)
Definition response (n : Z) (r : list (string * json)) : json :=
  JObj (dict [("id", JInt n); ("result", JObj (dict r))]).

(** An open connection on which the host answers the six awaited commands
    of a reload, with the pause at the breakpoint announced after the
    reload and the responses to the evaluations delivered late. *)
Definition reload_socket : websocket_t :=
  {| ws_inbound :=
       [response 1 [];
        response 2 [("breakpointId", JStr "instrumentation:1")];
        response 3 [];
        JObj (dict [("method", JStr "Debugger.paused")]);
        response 4 []; response 5 []; response 6 [];
        response 7 [];
        response 8 [];
        JObj (dict [("method", JStr "Debugger.resumed")]);
        response 9 []];
     ws_end := Silent; ws_closed := false; ws_log := [] |}.

(** Three commands, the second one awaited. *)
Definition three_calls : list (gmap string json * bool) :=
  [(dict [("method", JStr "Page.enable")], false);
   (dict [("method", JStr "Page.reload")], true);
   (dict [("method", JStr "Page.disable")], false)].

(** ** Further vocabulary *)

(** A frame that is not an object and on which the test of line 45 raises:
    a value that is not iterable, a string that contains [id], a list that
    has the string [id] among its elements (the subscript then fails). *)
Definition unreadable (msg : json) : bool :=
  match msg with
  | JNull | JBool _ | JInt _ | JFloat _ => true
  | JStr s => str_contains "id" s
  | JArr l => existsb (fun x => py_eq_str x "id") l
  | JObj _ => false
  end.

(** A frame that is not an object and that the test lets pass as not being
    the response: a string or a list without [id]. *)
Definition inert (msg : json) : bool :=
  match msg with
  | JStr s => negb (str_contains "id" s)
  | JArr l => negb (existsb (fun x => py_eq_str x "id") l)
  | _ => false
  end.

(** The first of the three fields that an entry of the listing lacks. *)
Definition missing_field (o : gmap string json) : option string :=
  match o !! "title" with
  | None => Some "title"
  | Some _ =>
      match o !! "id" with
      | None => Some "id"
      | Some _ =>
          match o !! "webSocketDebuggerUrl" with
          | None => Some "webSocketDebuggerUrl"
          | Some _ => None
          end
      end
  end.

(** The first key of the path [result.result.value] that is not there. *)
Definition missing_key (o : gmap string json) : option string :=
  match o !! "result" with
  | None => Some "result"
  | Some (JObj r1) =>
      match r1 !! "result" with
      | None => Some "result"
      | Some (JObj r2) =>
          match r2 !! "value" with
          | None => Some "value"
          | Some _ => None
          end
      | Some _ => None
      end
  | Some _ => None
  end.

(** The commands of the other methods. *)
Definition evaluate_command (js : string) (run_async : bool) : gmap string json :=
  dict [("method", JStr "Runtime.evaluate");
        ("params", JObj (dict [("expression", JStr js);
                               ("userGesture", JBool true);
                               ("awaitPromise", JBool run_async)]))].

Definition add_script_command (source : string) : gmap string json :=
  dict [("method", JStr "Page.addScriptToEvaluateOnNewDocument");
        ("params", JObj (dict [("source", JStr source)]))].

Definition remove_script_command (script_id : json) : gmap string json :=
  dict [("method", JStr "Page.removeScriptToEvaluateOnNewDocument");
        ("params", JObj (dict [("identifier", script_id)]))].

Definition page_enable : gmap string json := dict [("method", JStr "Page.enable")].

Definition page_disable : gmap string json := dict [("method", JStr "Page.disable")].

(** The tab once its socket was opened and closed again. *)
Definition reclosed (h : host) (self : Tab) : Tab :=
  snd (close_websocket (entered h true self)).

(** A body that iterates as nothing: the empty object and the empty
    string. *)
Definition iterates_empty (v : json) : bool :=
  match v with
  | JObj o => bool_decide (o = ∅)
  | JStr s => bool_decide (s = "")
  | _ => false
  end.

(** A host that answers the listing with [body], status 200. *)
Definition body_host (body : json) : host :=
  {| http_get := fun _ =>
       Ok {| status := 200; resp_text := ""; resp_json := Ok body |};
     ws_connect := fun _ => ([], Closed) |}.

(** ** Further example hosts and connections *)

(** A host that never accepts a connection. *)
Definition refusing_host : host :=
  {| http_get := fun _ => Err ClientConnectorError;
     ws_connect := fun _ => ([], Closed) |}.

(** A host that refuses one connection and breaks the second off. *)
Definition erroring_host : host :=
  {| http_get := fun k =>
       match k with
       | 0%nat => Err ClientConnectorError
       | _ => Err ClientError
       end;
     ws_connect := fun _ => ([], Closed) |}.

(** A host whose second entry has no debugger URL. *)
Definition partial_host : host :=
  {| http_get := fun _ =>
       Ok {| status := 200; resp_text := "";
             resp_json := Ok (JArr [descriptor "A" "1";
                                    JObj (dict [("title", JStr "B");
                                                ("id", JStr "2")])]) |};
     ws_connect := fun _ => ([], Closed) |}.

(** An error reply to command [n]. *)
Definition error_reply (n : Z) : json :=
  JObj (dict [("id", JInt n);
              ("error", JObj (dict [("code", JInt (-32601));
                                    ("message", JStr "method not found")]))]).

(** An open connection on which the host refuses the breakpoint. *)
Definition refused_breakpoint_socket : websocket_t :=
  {| ws_inbound := [response 1 []; error_reply 2; response 3 []];
     ws_end := Silent; ws_closed := false; ws_log := [] |}.

(** An open connection on which a number arrives before the response. *)
Definition number_socket : websocket_t :=
  {| ws_inbound := [JObj (dict [("method", JStr "Page.loaded")]); JInt 5;
                    response 1 []];
     ws_end := Silent; ws_closed := false; ws_log := [] |}.

(** An open connection that answers two commands in turn. *)
Definition answering_socket : websocket_t :=
  {| ws_inbound := [response 1 []; JObj (dict [("method", JStr "Page.loaded")]);
                    response 2 [("identifier", JStr "7")]];
     ws_end := Silent; ws_closed := false; ws_log := [] |}.

(** * Properties *)

(** ** The monad and the read loop *)

(** Two descriptions of the same tab object: unfold the setters and
    reassociate the logs. *)
Ltac same_tab :=
  unfold session, advanced, numbered, set_websocket, set_cmd_id, set_client, ret;
  simpl;
  repeat match goal with H : ws_closed _ = _ |- _ => rewrite H end;
  rewrite <- ?(assoc_L (++)); simpl;
  reflexivity.

Lemma bind_step {A B : Type} (m : M A) (k : A -> M B) (self self' : Tab) (a : A) :
  m self = (Ret a, self') -> bind m k self = k a self'.
Proof. intros Hm. unfold bind. by rewrite Hm. Qed.

Lemma is_reply_unsolicited n msg :
  unsolicited n msg = true -> is_reply n msg = Ok false.
Proof.
  destruct msg as [| | | | | |o]; simpl; try discriminate.
  unfold is_reply; simpl.
  destruct (o !! "id") as [v|]; simpl; [|done].
  intros Hv. apply negb_true_iff in Hv. by rewrite Hv.
Qed.

Lemma is_reply_responds n msg :
  responds_to n msg = true -> is_reply n msg = Ok true.
Proof.
  destruct msg as [| | | | | |o]; simpl; try discriminate.
  unfold is_reply; simpl.
  destruct (o !! "id") as [v|]; simpl; [|discriminate].
  by intros ->.
Qed.

Lemma all_unsolicited n frames :
  Forall (fun m => unsolicited n m = true) frames ->
  Forall (fun m => is_reply n m = Ok false) frames.
Proof.
  intros Hall. eapply Forall_impl; [exact Hall|].
  intros m. apply is_reply_unsolicited.
Qed.

Lemma listen_found n pre m rest w :
  Forall (fun x => is_reply n x = Ok false) pre ->
  is_reply n m = Ok true ->
  listen_for_message n (pre ++ m :: rest) w
  = (Ret m, advanced w [] (pre ++ [m]) rest).
Proof.
  intros Hpre Hm. revert w.
  induction Hpre as [|x pre Hx _ IH]; intros w; simpl.
  - by rewrite Hm.
  - rewrite Hx, IH. unfold advanced; simpl.
    by rewrite <- (assoc_L (++)).
Qed.

Lemma listen_closed n frames w :
  Forall (fun x => is_reply n x = Ok false) frames ->
  ws_end w = Closed ->
  listen_for_message n frames w
  = (Ret JNull, {| ws_inbound := []; ws_end := Closed; ws_closed := true;
                   ws_log := ws_log w ++ (Received <$> frames) |}).
Proof.
  intros Hfr. revert w.
  induction Hfr as [|x frames Hx _ IH]; intros w Hend; simpl.
  - rewrite Hend. by rewrite (right_id_L [] (++)).
  - rewrite Hx, IH by done. simpl. by rewrite <- (assoc_L (++)).
Qed.

Lemma listen_silent n frames w :
  Forall (fun x => is_reply n x = Ok false) frames ->
  ws_end w = Silent ->
  fst (listen_for_message n frames w) = Hang.
Proof.
  intros Hfr. revert w.
  induction Hfr as [|x frames Hx _ IH]; intros w Hend; simpl.
  - by rewrite Hend.
  - rewrite Hx. by apply IH.
Qed.

Lemma listen_log n frames w :
  exists read, ws_log (snd (listen_for_message n frames w))
               = ws_log w ++ (Received <$> read).
Proof.
  revert w. induction frames as [|msg frames IH]; intros w; simpl.
  - exists []. destruct (ws_end w); simpl; by rewrite (right_id_L [] (++)).
  - destruct (is_reply n msg) as [[|]|e]; simpl.
    + by exists [msg].
    + destruct (IH {| ws_inbound := frames; ws_end := ws_end w;
                      ws_closed := ws_closed w;
                      ws_log := ws_log w ++ [Received msg] |}) as [read Hread].
      exists (msg :: read). rewrite Hread. simpl. by rewrite <- (assoc_L (++)).
    + by exists [msg].
Qed.

(** ** One command *)

Lemma send_unopened dc receive self :
  websocket self = None ->
  _send_devtools_cmd dc receive self
  = (Raise (RuntimeError "Websocket not opened"), self).
Proof.
  intros Hw. unfold _send_devtools_cmd, bind, get_self. by rewrite Hw.
Qed.

Lemma send_forget dc self w :
  websocket self = Some w -> ws_closed w = false ->
  _send_devtools_cmd dc false self
  = (Ret JNull,
     session self (read_cmd_id self + 1)
       (advanced w [Sent (numbered (read_cmd_id self + 1) dc)] [] (ws_inbound w))).
Proof.
  intros Hw Hc. destruct self as [t i u ws cl c]; simpl in *. subst ws.
  unfold _send_devtools_cmd, send_json, bind, get_self, update; simpl.
  rewrite Hc; simpl. same_tab.
Qed.

Lemma send_found dc self w pre m rest :
  websocket self = Some w -> ws_closed w = false ->
  ws_inbound w = pre ++ m :: rest ->
  Forall (fun x => is_reply (read_cmd_id self + 1) x = Ok false) pre ->
  is_reply (read_cmd_id self + 1) m = Ok true ->
  _send_devtools_cmd dc true self
  = (Ret m,
     session self (read_cmd_id self + 1)
       (advanced w [Sent (numbered (read_cmd_id self + 1) dc)] (pre ++ [m]) rest)).
Proof.
  intros Hw Hc Hin Hpre Hm. destruct self as [t i u ws cl c]; simpl in *. subst ws.
  unfold _send_devtools_cmd, send_json, await_reply, bind, get_self, update; simpl.
  rewrite Hc; simpl. rewrite Hin.
  unfold read_cmd_id in *; simpl in *.
  rewrite (listen_found _ pre m rest) by done.
  same_tab.
Qed.

Lemma send_closed dc self w :
  websocket self = Some w -> ws_closed w = false -> ws_end w = Closed ->
  Forall (fun x => is_reply (read_cmd_id self + 1) x = Ok false) (ws_inbound w) ->
  _send_devtools_cmd dc true self
  = (Ret JNull,
     session self (read_cmd_id self + 1)
       {| ws_inbound := []; ws_end := Closed; ws_closed := true;
          ws_log := ws_log w ++ Sent (numbered (read_cmd_id self + 1) dc)
                      :: (Received <$> ws_inbound w) |}).
Proof.
  intros Hw Hc Hend Hall. destruct self as [t i u ws cl c]; simpl in *. subst ws.
  unfold _send_devtools_cmd, send_json, await_reply, bind, get_self, update; simpl.
  rewrite Hc; simpl.
  unfold read_cmd_id in *; simpl in *.
  rewrite listen_closed by done.
  same_tab.
Qed.

(** While the host stays silent after messages that are not the response,
    the awaited command never returns. *)
Lemma send_hangs dc self w :
  websocket self = Some w -> ws_closed w = false -> ws_end w = Silent ->
  Forall (fun x => unsolicited (read_cmd_id self + 1) x = true) (ws_inbound w) ->
  fst (_send_devtools_cmd dc true self) = Hang.
Proof.
  intros Hw Hc Hend Hall. apply all_unsolicited in Hall.
  destruct self as [t i u ws cl c]; simpl in *. subst ws.
  unfold _send_devtools_cmd, send_json, await_reply, bind, get_self, update; simpl.
  rewrite Hc; simpl.
  unfold read_cmd_id in *; simpl in *.
  match goal with
  | |- context [listen_for_message ?n ?fr ?w0] =>
      pose proof (listen_silent n fr w0 Hall Hend) as Hl;
      destruct (listen_for_message n fr w0) as [r w']
  end.
  simpl in *. by subst r.
Qed.

Lemma session_cmd_id (s : Tab) n w : read_cmd_id (session s n w) = n.
Proof. reflexivity. Qed.

Lemma send_found_at n dc (self : Tab) w pre m rest :
  websocket self = Some w ->
  ws_closed w = false ->
  ws_inbound w = pre ++ m :: rest ->
  n = read_cmd_id self + 1 ->
  answered n pre m ->
  _send_devtools_cmd dc true self
  = (Ret m, session self n (advanced w [Sent (numbered n dc)] (pre ++ [m]) rest)).
Proof.
  intros Hw Hopen Hin -> [Hpre Hm].
  apply send_found; try done.
  - by apply all_unsolicited.
  - by apply is_reply_responds.
Qed.

Lemma send_forget_at n dc (self : Tab) w :
  websocket self = Some w ->
  ws_closed w = false ->
  n = read_cmd_id self + 1 ->
  _send_devtools_cmd dc false self
  = (Ret JNull, session self n (advanced w [Sent (numbered n dc)] [] (ws_inbound w))).
Proof. intros Hw Hopen ->. by apply send_forget. Qed.

(** ** Managed and unmanaged sockets *)

Lemma enter_socket (h : host) (manage_socket : bool) (self : Tab) :
  (if manage_socket then open_websocket h else ret tt) self
  = (Ret tt, entered h manage_socket self).
Proof.
  destruct manage_socket; [|done].
  unfold entered, open_websocket, bind, update, get_self; simpl.
  by destruct (ws_connect h (ws_url self)).
Qed.

Lemma entered_cmd_id (h : host) (manage_socket : bool) (self : Tab) :
  read_cmd_id (entered h manage_socket self) = read_cmd_id self.
Proof.
  destruct manage_socket; [|done].
  unfold entered, open_websocket, bind, update, get_self; simpl.
  by destruct (ws_connect h (ws_url self)).
Qed.

Lemma entered_client h self :
  client (entered h true self) = Some {| session_closed := false |}.
Proof.
  unfold entered, open_websocket, bind, update, get_self; simpl.
  by destruct (ws_connect h (ws_url self)).
Qed.

Lemma entered_websocket h self :
  websocket (entered h true self)
  = Some {| ws_inbound := fst (ws_connect h (ws_url self));
            ws_end := snd (ws_connect h (ws_url self));
            ws_closed := false; ws_log := [] |}.
Proof.
  unfold entered, open_websocket, bind, update, get_self; simpl.
  by destruct (ws_connect h (ws_url self)).
Qed.

Lemma leave_socket (h : host) (manage_socket : bool) (self : Tab) n w :
  fst ((if manage_socket then close_websocket else ret tt)
         (session (entered h manage_socket self) n w)) = Ret tt.
Proof.
  destruct manage_socket; [|done].
  unfold close_websocket, bind, get_self.
  change (client (session (entered h true self) n w))
    with (client (entered h true self)).
  by rewrite entered_client.
Qed.

Lemma leave_socket_state (h : host) (manage_socket : bool) (self st : Tab) w0 :
  client st = client (entered h manage_socket self) ->
  websocket st = Some w0 ->
  exists st' w',
    ((if manage_socket then close_websocket else ret tt) ;; ret tt) st = (Ret tt, st') /\
    websocket st' = Some w' /\
    ws_inbound w' = ws_inbound w0 /\
    ws_log w' = ws_log w0.
Proof.
  intros Hcl Hw0. destruct manage_socket.
  - rewrite entered_client in Hcl.
    exists (set_websocket (Some (shut w0)) (set_client (Some {| session_closed := true |}) st)),
           (shut w0).
    unfold close_websocket, bind, get_self, update, ret. by rewrite Hcl, Hw0.
  - by exists st, w0.
Qed.

Lemma Tab_init_fresh res self :
  Tab_init res = Ok self ->
  websocket self = None /\ client self = None /\ cmd_id self = None.
Proof.
  unfold Tab_init. intros Hinit.
  destruct (py_getitem res "title"); simpl in Hinit; [|discriminate].
  destruct (py_getitem res "id"); simpl in Hinit; [|discriminate].
  destruct (py_getitem res "webSocketDebuggerUrl"); simpl in Hinit; [|discriminate].
  by injection Hinit as <-.
Qed.

(** ** Sending before the connection is open *)

(** C9: [open_websocket] is the only place that assigns [self.websocket],
    so a session whose connection was never opened is a tab whose
    [websocket] is still the [None] of [Tab.__init__].  Any command sent on
    it fails with [RuntimeError("Websocket not opened")], and the tab is left
    as it was: nothing was sent and no id was consumed. *)
Theorem send_on_unopened_session_fails (dc : gmap string json) (receive : bool)
    (self : Tab) :
  websocket self = None ->
  _send_devtools_cmd dc receive self
  = (Raise (RuntimeError "Websocket not opened"), self) /\
  (forall (res : json) (tab : Tab), Tab_init res = Ok tab -> websocket tab = None).
Proof.
  intros Hw. split; [by apply send_unopened|].
  intros res tab Hinit. by destruct (Tab_init_fresh res tab Hinit).
Qed.

Lemma send_on_unopened_session_fails_witness :
  _send_devtools_cmd (dict [("method", JStr "Page.enable")]) true (listed "SP" "0")
  = (Raise (RuntimeError "Websocket not opened"), listed "SP" "0") /\
  (forall (res : json) (tab : Tab), Tab_init res = Ok tab -> websocket tab = None).
Proof.
  apply (send_on_unopened_session_fails
           (dict [("method", JStr "Page.enable")]) true (listed "SP" "0")).
  reflexivity.
Defined.

(** ** The stream ends before the response *)

(** C10: when the host closes the connection and no inbound message
    carried the id of the command, the awaited [_send_devtools_cmd] returns
    [None], and so does [evaluate_js] with [get_result=True], whether or not
    it manages the socket itself; no exception is raised. *)
Theorem closed_stream_yields_none (h : host) (dc : gmap string json)
    (js : string) (run_async manage_socket : bool) (self : Tab) (w : websocket_t) :
  websocket (entered h manage_socket self) = Some w ->
  ws_closed w = false ->
  ws_end w = Closed ->
  Forall (fun m => unsolicited (read_cmd_id self + 1) m = true) (ws_inbound w) ->
  fst (_send_devtools_cmd dc true (entered h manage_socket self)) = Ret JNull /\
  fst (evaluate_js h js run_async manage_socket true self) = Ret JNull.
Proof.
  intros Hw Hopen Hend Hall.
  apply all_unsolicited in Hall.
  rewrite <- (entered_cmd_id h manage_socket) in Hall.
  set (dc' := dict [("method", JStr "Runtime.evaluate");
                    ("params", JObj (dict [("expression", JStr js);
                                           ("userGesture", JBool true);
                                           ("awaitPromise", JBool run_async)]))]).
  split.
  - by rewrite (send_closed _ _ w).
  - unfold evaluate_js.
    rewrite (bind_step _ _ _ _ _ (enter_socket h manage_socket self)).
    rewrite (bind_step _ _ _ _ _ (send_closed dc' _ w Hw Hopen Hend Hall)).
    unfold bind.
    pose proof (leave_socket h manage_socket self
                  (read_cmd_id (entered h manage_socket self) + 1)) as Hleave.
    match goal with
    | |- context [(if manage_socket then close_websocket else ret tt) (session _ _ ?w')] =>
        specialize (Hleave w')
    end.
    by destruct ((if manage_socket then close_websocket else ret tt) _) as [[[]| |] st].
Qed.

Lemma closed_stream_yields_none_witness :
  fst (_send_devtools_cmd (dict [("method", JStr "Page.reload")]) true
         (blank_tab (Some closing_socket))) = Ret JNull /\
  fst (evaluate_js prompt_host "document.title" false false true
         (blank_tab (Some closing_socket))) = Ret JNull.
Proof.
  apply (closed_stream_yields_none prompt_host
           (dict [("method", JStr "Page.reload")]) "document.title" false false
           (blank_tab (Some closing_socket)) closing_socket).
  - reflexivity.
  - reflexivity.
  - reflexivity.
  - repeat constructor.
Defined.

(** ** Correlation of responses *)

(** C1: on an open connection, whatever events and messages with other ids
    the host interleaves, each awaited [_send_devtools_cmd] of a sequence
    reads past them and returns the first message whose id equals the id it
    assigned; the commands get the ids following the counter, and exactly the
    messages up to the last response are taken off the stream. *)
Theorem responses_matched_by_id (cmds : list (gmap string json))
    (segs : list (list json * json)) (rest : list json)
    (self : Tab) (w : websocket_t) :
  websocket self = Some w ->
  ws_closed w = false ->
  ws_inbound w = stream segs ++ rest ->
  length segs = length cmds ->
  interleaved (read_cmd_id self) segs ->
  exists (self' : Tab) (w' : websocket_t),
    send_each cmds self = (Ret (snd <$> segs), self') /\
    read_cmd_id self' = read_cmd_id self + Z.of_nat (length cmds) /\
    websocket self' = Some w' /\
    ws_closed w' = false /\
    ws_inbound w' = rest.
Proof.
  revert segs self w.
  induction cmds as [|dc cmds IH]; intros segs self w Hw Hopen Hin Hlen Hseg.
  - destruct segs; [|discriminate]. exists self, w. simpl in *.
    repeat split; try done. lia.
  - destruct segs as [|[noise reply] segs]; [discriminate|].
    simpl in Hlen, Hseg, Hin. destruct Hseg as (Hnoise & Hreply & Hseg).
    unfold stream in Hin; simpl in Hin. rewrite <- !(assoc_L (++)) in Hin.
    simpl in Hin.
    pose proof (send_found dc self w noise reply _ Hw Hopen Hin
                  (all_unsolicited _ _ Hnoise) (is_reply_responds _ _ Hreply)) as Hsend.
    destruct (IH segs
                (session self (read_cmd_id self + 1)
                   (advanced w [Sent (numbered (read_cmd_id self + 1) dc)]
                      (noise ++ [reply]) (stream segs ++ rest)))
                (advanced w [Sent (numbered (read_cmd_id self + 1) dc)]
                   (noise ++ [reply]) (stream segs ++ rest)))
      as (self' & w' & Hrun & Hid & Hw' & Hopen' & Hin'); try done.
    { by injection Hlen. }
    exists self', w'. simpl.
    rewrite (bind_step _ _ _ _ _ Hsend), (bind_step _ _ _ _ _ Hrun).
    repeat split; try done.
    rewrite Hid. change (read_cmd_id (session self _ _)) with (read_cmd_id self + 1).
    lia.
Qed.

Lemma responses_matched_by_id_witness :
  exists (self' : Tab) (w' : websocket_t),
    send_each [dict [("method", JStr "Page.enable")];
               dict [("method", JStr "Page.reload")]]
              (blank_tab (Some two_replies))
    = (Ret [JObj (dict [("id", JInt 1); ("result", JStr "first")]);
            JObj (dict [("id", JInt 2); ("result", JStr "second")])], self') /\
    read_cmd_id self' = 2 /\
    websocket self' = Some w' /\
    ws_closed w' = false /\
    ws_inbound w' = [JObj (dict [("method", JStr "Page.loaded")])].
Proof.
  apply (responses_matched_by_id
           [dict [("method", JStr "Page.enable")];
            dict [("method", JStr "Page.reload")]]
           [([JObj (dict [("method", JStr "Debugger.paused")]);
              JObj (dict [("id", JInt 7); ("result", JObj (dict []))])],
             JObj (dict [("id", JInt 1); ("result", JStr "first")]));
            ([], JObj (dict [("id", JInt 2); ("result", JStr "second")]))]
           [JObj (dict [("method", JStr "Page.loaded")])]
           (blank_tab (Some two_replies)) two_replies).
  - reflexivity.
  - reflexivity.
  - reflexivity.
  - reflexivity.
  - simpl. repeat split; try (repeat constructor); vm_compute; reflexivity.
Defined.

(** ** Command ids *)

Lemma sent_ids_received log read :
  sent_ids (log ++ (Received <$> read)) = sent_ids log.
Proof.
  unfold sent_ids. rewrite omap_app.
  replace (omap sent_id (Received <$> read)) with (@nil (option json)).
  - by rewrite (right_id_L [] (++)).
  - induction read; simpl; done.
Qed.

(** What one call does to the counter and to the ids on the wire: the
    counter is incremented first, and the command written carries the new
    value; on a closed connection the write fails and the value is spent. *)
Lemma send_ids dc receive self w :
  websocket self = Some w ->
  exists w',
    websocket (snd (_send_devtools_cmd dc receive self)) = Some w' /\
    read_cmd_id (snd (_send_devtools_cmd dc receive self)) = read_cmd_id self + 1 /\
    sent_ids (ws_log w')
    = sent_ids (ws_log w)
      ++ (if ws_closed w then [] else [Some (JInt (read_cmd_id self + 1))]).
Proof.
  intros Hw. destruct self as [t i u ws cl c]; simpl in *. subst ws.
  unfold _send_devtools_cmd, send_json, await_reply, bind, get_self, update; simpl.
  destruct (ws_closed w) eqn:Hc; simpl.
  - exists w. repeat split. by rewrite (right_id_L [] (++)).
  - assert (sent_ids (ws_log w ++ [Sent (<["id":=JInt (read_cmd_id
              {| title := t; id := i; ws_url := u; websocket := Some w;
                 client := cl; cmd_id := c |} + 1)]> dc)])
            = sent_ids (ws_log w) ++ [Some (JInt (default Tab_cmd_id c + 1))]) as Hsent.
    { unfold sent_ids. rewrite omap_app. simpl. by rewrite lookup_insert_eq. }
    destruct receive; simpl.
    + match goal with
      | |- context [listen_for_message ?n ?fr ?w0] =>
          destruct (listen_log n fr w0) as [read Hread];
          destruct (listen_for_message n fr w0) as [r w'] eqn:Hl
      end.
      simpl in *. exists w'. repeat split.
      by rewrite Hread, sent_ids_received.
    + eexists. by repeat split.
Qed.

Lemma send_keeps_ids_increasing lo dc receive self :
  lo <= read_cmd_id self ->
  ids_increasing lo self ->
  ids_increasing lo (snd (_send_devtools_cmd dc receive self)) /\
  read_cmd_id self <= read_cmd_id (snd (_send_devtools_cmd dc receive self))
                   <= read_cmd_id self + 1.
Proof.
  intros Hlo Hinv.
  destruct (websocket self) as [w|] eqn:Hw.
  - destruct (send_ids dc receive self w Hw) as (w' & Hw' & Hid & Hlog).
    split; [|lia].
    intros w'' Hw''. rewrite Hw' in Hw''. injection Hw'' as <-.
    destruct (Hinv w Hw) as (ids & Hids & Hsorted & Hbound).
    rewrite Hid, Hlog, Hids. destruct (ws_closed w).
    + exists ids. rewrite (right_id_L [] (++)). repeat split; [done|].
      eapply Forall_impl; [exact Hbound|]. simpl. lia.
    + exists (ids ++ [read_cmd_id self + 1]). repeat split.
      * by rewrite fmap_app.
      * apply StronglySorted_app_2; [|done|repeat constructor].
        intros x1 x2 Hx1 Hx2. apply list_elem_of_singleton in Hx2 as ->.
        rewrite Forall_forall in Hbound. specialize (Hbound x1 Hx1). lia.
      * apply Forall_app. split; [|repeat constructor; lia].
        eapply Forall_impl; [exact Hbound|]. simpl. lia.
  - rewrite send_unopened by done. simpl. split; [done|lia].
Qed.

Lemma run_keeps_ids_increasing lo calls self :
  lo <= read_cmd_id self ->
  ids_increasing lo self ->
  ids_increasing lo (run_calls calls self) /\
  read_cmd_id self <= read_cmd_id (run_calls calls self)
                   <= read_cmd_id self + Z.of_nat (length calls).
Proof.
  revert self. induction calls as [|[dc receive] calls IH]; intros self Hlo Hinv.
  - simpl. split; [done|lia].
  - destruct (send_keeps_ids_increasing lo dc receive self Hlo Hinv) as [Hinv' Hid].
    simpl. destruct (_send_devtools_cmd dc receive self) as [[r|e|] self'];
      simpl in *.
    + destruct (IH self') as [? ?]; [lia|done|]. split; [done|lia].
    + destruct (IH self') as [? ?]; [lia|done|]. split; [done|lia].
    + split; [done|lia].
Qed.

Lemma increasing_NoDup (ids : list Z) : StronglySorted Z.lt ids -> NoDup ids.
Proof.
  induction 1 as [|x ids _ IH Hx]; constructor; [|done].
  intros Hin. rewrite Forall_forall in Hx. specialize (Hx x Hin). lia.
Qed.

(** C2: the counter belongs to the tab object and reads 0 on a tab just
    built.  A command on an open connection is written with the counter plus
    one, which becomes the counter.  So on the connection of a session, after
    any sequence of commands, the ids written are integers in strictly
    increasing order, hence without repetition, starting above 0 and never
    beyond the counter, which advanced by at most one per command. *)
Theorem command_ids_strictly_increasing (h : host) (res : json) (self : Tab)
    (calls : list (gmap string json * bool)) :
  Tab_init res = Ok self ->
  read_cmd_id self = 0 /\
  (forall dc receive (s : Tab) (w : websocket_t),
     websocket s = Some w -> ws_closed w = false ->
     exists w',
       websocket (snd (_send_devtools_cmd dc receive s)) = Some w' /\
       read_cmd_id (snd (_send_devtools_cmd dc receive s)) = read_cmd_id s + 1 /\
       sent_ids (ws_log w')
       = sent_ids (ws_log w) ++ [Some (JInt (read_cmd_id s + 1))]) /\
  exists (w : websocket_t) (ids : list Z),
    websocket (run_calls calls (entered h true self)) = Some w /\
    sent_ids (ws_log w) = (fun i => Some (JInt i)) <$> ids /\
    StronglySorted Z.lt ids /\
    NoDup ids /\
    Forall (fun i => 1 <= i <= read_cmd_id (run_calls calls (entered h true self))) ids /\
    read_cmd_id (run_calls calls (entered h true self)) <= Z.of_nat (length calls).
Proof.
  intros Hinit. destruct (Tab_init_fresh res self Hinit) as (_ & _ & Hc).
  assert (read_cmd_id self = 0) as H0 by (unfold read_cmd_id; by rewrite Hc).
  split; [done|]. split.
  { intros dc receive s w Hw Hopen.
    destruct (send_ids dc receive s w Hw) as (w' & Hw' & Hid & Hlog).
    rewrite Hopen in Hlog. by exists w'. }
  destruct (run_keeps_ids_increasing 0 calls (entered h true self)) as [Hinv Hid].
  { rewrite entered_cmd_id. lia. }
  { intros w Hw. rewrite entered_websocket in Hw. injection Hw as <-.
    exists []. repeat split; constructor. }
  rewrite entered_cmd_id, H0 in Hid.
  assert (exists w, websocket (run_calls calls (entered h true self)) = Some w)
    as [w Hw].
  { clear Hinv Hid. generalize (entered_websocket h self).
    generalize (entered h true self). intros s. generalize ({|
      ws_inbound := fst (ws_connect h (ws_url self));
      ws_end := snd (ws_connect h (ws_url self));
      ws_closed := false; ws_log := [] |}).
    revert s. induction calls as [|[dc receive] calls IH]; intros s w0 Hs; simpl.
    - by exists w0.
    - destruct (send_ids dc receive s w0 Hs) as (w' & Hw' & _).
      destruct (_send_devtools_cmd dc receive s) as [[r|e|] s']; simpl in *;
        eauto. }
  destruct (Hinv w Hw) as (ids & Hids & Hsorted & Hbound).
  exists w, ids. repeat split; try done.
  - by apply increasing_NoDup.
  - eapply Forall_impl; [exact Hbound|]. simpl. lia.
  - lia.
Qed.

Lemma command_ids_strictly_increasing_witness :
  exists (w : websocket_t) (ids : list Z),
    websocket (run_calls three_calls (entered prompt_host true (listed "SP" "0")))
    = Some w /\
    sent_ids (ws_log w) = (fun i => Some (JInt i)) <$> ids /\
    StronglySorted Z.lt ids /\
    NoDup ids /\
    Forall (fun i => 1 <= i <= read_cmd_id
              (run_calls three_calls (entered prompt_host true (listed "SP" "0")))) ids /\
    read_cmd_id (run_calls three_calls (entered prompt_host true (listed "SP" "0")))
    <= 3.
Proof.
  apply (command_ids_strictly_increasing prompt_host
           (descriptor "SP" "0") (listed "SP" "0") three_calls).
  reflexivity.
Defined.

(** ** The reload workflow *)

(** One awaited command of a sequence: the host's answer [reply] comes
    after [noise]. *)
Ltac awaited n noise reply :=
  erewrite bind_step;
  [|eapply (send_found_at n) with (pre := noise) (m := reply);
    [first [eassumption|reflexivity]
    |first [eassumption|reflexivity]
    |first [eassumption|reflexivity]
    |rewrite ?session_cmd_id; lia
    |assumption]].

(** One command that is not awaited, with the [ret tt] that follows it in
    the loop body. *)
Ltac forgotten n :=
  erewrite bind_step;
  [|erewrite bind_step;
    [|eapply (send_forget_at n);
      [reflexivity|eassumption|rewrite ?session_cmd_id; lia]];
    reflexivity].

Lemma breakpoint_of_getitem reply bp :
  breakpoint_of reply = Some bp ->
  (r ← py_getitem reply "result"; py_getitem r "breakpointId") = Ok bp.
Proof.
  destruct reply as [| | | | | |o]; simpl; try discriminate.
  destruct (o !! "result") as [[| | | | | |r]|]; simpl; try discriminate.
  by intros ->.
Qed.

Lemma commands_app log1 log2 : commands (log1 ++ log2) = commands log1 ++ commands log2.
Proof. unfold commands. apply omap_app. Qed.

Lemma commands_received read : commands (Received <$> read) = [].
Proof. induction read; simpl; done. Qed.

(** C3 (as amended): when the host answers the six awaited commands (the
    response to the breakpoint carrying its id), [reload_and_evaluate]
    writes, in this order: Debugger.enable,
    Debugger.setInstrumentationBreakpoint and Page.reload, each followed by
    the reads up to its response; the Runtime.evaluate of the expression
    three times with no read in between; then Debugger.removeBreakpoint,
    Debugger.resume and Debugger.disable, each again read up to its
    response.  Nothing in the inbound messages is inspected beyond their
    ids, so the sequence is the same whether or not a breakpoint event is
    among them. *)
Theorem reload_and_evaluate_sequence (h : host) (js : string) (manage_socket : bool)
    (self : Tab) (w : websocket_t) (bp : json)
    (n1 n2 n3 n7 n8 n9 rest : list json) (r1 r2 r3 r7 r8 r9 : json) :
  websocket (entered h manage_socket self) = Some w ->
  ws_closed w = false ->
  ws_inbound w = n1 ++ r1 :: n2 ++ r2 :: n3 ++ r3 :: n7 ++ r7 :: n8 ++ r8 :: n9 ++ r9 :: rest ->
  answered (read_cmd_id self + 1) n1 r1 ->
  answered (read_cmd_id self + 2) n2 r2 ->
  answered (read_cmd_id self + 3) n3 r3 ->
  answered (read_cmd_id self + 7) n7 r7 ->
  answered (read_cmd_id self + 8) n8 r8 ->
  answered (read_cmd_id self + 9) n9 r9 ->
  breakpoint_of r2 = Some bp ->
  let c := read_cmd_id self in
  let run := reload_and_evaluate h js manage_socket self in
  fst run = Ret tt /\
  exists w' : websocket_t,
    websocket (snd run) = Some w' /\
    ws_inbound w' = rest /\
    ws_log w' =
      ws_log w
      ++ Sent (numbered (c + 1) debugger_enable) :: (Received <$> n1 ++ [r1])
      ++ Sent (numbered (c + 2) set_breakpoint) :: (Received <$> n2 ++ [r2])
      ++ Sent (numbered (c + 3) page_reload) :: (Received <$> n3 ++ [r3])
      ++ Sent (numbered (c + 4) (runtime_evaluate js))
      :: Sent (numbered (c + 5) (runtime_evaluate js))
      :: Sent (numbered (c + 6) (runtime_evaluate js))
      :: Sent (numbered (c + 7) (remove_breakpoint bp)) :: (Received <$> n7 ++ [r7])
      ++ Sent (numbered (c + 8) debugger_resume) :: (Received <$> n8 ++ [r8])
      ++ Sent (numbered (c + 9) debugger_disable) :: (Received <$> n9 ++ [r9]) /\
    commands (ws_log w') =
      commands (ws_log w)
      ++ [numbered (c + 1) debugger_enable;
          numbered (c + 2) set_breakpoint;
          numbered (c + 3) page_reload;
          numbered (c + 4) (runtime_evaluate js);
          numbered (c + 5) (runtime_evaluate js);
          numbered (c + 6) (runtime_evaluate js);
          numbered (c + 7) (remove_breakpoint bp);
          numbered (c + 8) debugger_resume;
          numbered (c + 9) debugger_disable].
Proof.
  intros Hw Hopen Hin H1 H2 H3 H7 H8 H9 Hbp c run.
  subst run. unfold reload_and_evaluate.
  assert (read_cmd_id (entered h manage_socket self) = c) as Hc
    by apply entered_cmd_id.
  change (read_cmd_id self) with c in H1, H2, H3, H7, H8, H9. clearbody c.
  rewrite (bind_step _ _ _ _ _ (enter_socket h manage_socket self)).
  set (s := entered h manage_socket self) in *.
  awaited (c + 1) n1 r1. awaited (c + 2) n2 r2. awaited (c + 3) n3 r3.
  erewrite bind_step;
    [|simpl for_range;
      forgotten (c + 4); forgotten (c + 5); forgotten (c + 6); reflexivity].
  rewrite (breakpoint_of_getitem _ _ Hbp).
  erewrite bind_step; [|reflexivity].
  awaited (c + 7) n7 r7. awaited (c + 8) n8 r8. awaited (c + 9) n9 r9.
  match goal with
  | |- context [((if manage_socket then close_websocket else ret tt) ;; ret tt) ?st] =>
      destruct (leave_socket_state h manage_socket self st _ eq_refl eq_refl)
        as (st' & w' & -> & Hw' & Hin' & Hlog')
  end.
  split; [done|]. exists w'. simpl in Hin', Hlog'.
  assert (ws_log w' = ws_log w
      ++ Sent (numbered (c + 1) debugger_enable) :: (Received <$> n1 ++ [r1])
      ++ Sent (numbered (c + 2) set_breakpoint) :: (Received <$> n2 ++ [r2])
      ++ Sent (numbered (c + 3) page_reload) :: (Received <$> n3 ++ [r3])
      ++ Sent (numbered (c + 4) (runtime_evaluate js))
      :: Sent (numbered (c + 5) (runtime_evaluate js))
      :: Sent (numbered (c + 6) (runtime_evaluate js))
      :: Sent (numbered (c + 7) (remove_breakpoint bp)) :: (Received <$> n7 ++ [r7])
      ++ Sent (numbered (c + 8) debugger_resume) :: (Received <$> n8 ++ [r8])
      ++ Sent (numbered (c + 9) debugger_disable) :: (Received <$> n9 ++ [r9])) as Hlog.
  { rewrite Hlog'. rewrite <- !(assoc_L (++)). reflexivity. }
  repeat split; [done|done|done|].
  rewrite Hlog. rewrite !commands_app. simpl.
  repeat (rewrite ?commands_app, ?commands_received; simpl).
  reflexivity.
Qed.

Lemma reload_and_evaluate_sequence_witness :
  fst (reload_and_evaluate prompt_host "inject()" false
         (blank_tab (Some reload_socket))) = Ret tt /\
  exists w' : websocket_t,
    websocket (snd (reload_and_evaluate prompt_host "inject()" false
                      (blank_tab (Some reload_socket)))) = Some w' /\
    ws_inbound w' = [] /\
    commands (ws_log w')
    = [numbered 1 debugger_enable;
       numbered 2 set_breakpoint;
       numbered 3 page_reload;
       numbered 4 (runtime_evaluate "inject()");
       numbered 5 (runtime_evaluate "inject()");
       numbered 6 (runtime_evaluate "inject()");
       numbered 7 (remove_breakpoint (JStr "instrumentation:1"));
       numbered 8 debugger_resume;
       numbered 9 debugger_disable].
Proof.
  destruct (reload_and_evaluate_sequence prompt_host "inject()" false
              (blank_tab (Some reload_socket)) reload_socket
              (JStr "instrumentation:1")
              [] [] []
              [JObj (dict [("method", JStr "Debugger.paused")]);
               response 4 []; response 5 []; response 6 []]
              []
              [JObj (dict [("method", JStr "Debugger.resumed")])]
              []
              (response 1 [])
              (response 2 [("breakpointId", JStr "instrumentation:1")])
              (response 3 []) (response 7 []) (response 8 []) (response 9 []))
    as (Hret & w' & Hw' & Hin' & _ & Hcmds).
  - reflexivity.
  - reflexivity.
  - reflexivity.
  - split; [constructor|reflexivity].
  - split; [constructor|reflexivity].
  - split; [constructor|reflexivity].
  - split; [repeat constructor|reflexivity].
  - split; [constructor|reflexivity].
  - split; [repeat constructor|reflexivity].
  - reflexivity.
  - split; [exact Hret|]. exists w'.
    split; [exact Hw'|]. split; [exact Hin'|exact Hcmds].
Defined.

(** Where the claim as stated fails: not every invocation gets as far as
    the resume.  On a connection where the host answers
    Debugger.setInstrumentationBreakpoint with an error reply, the subscript
    of line 124 raises [KeyError] after the third evaluation; six commands
    were written, and Debugger.removeBreakpoint, Debugger.resume and
    Debugger.disable are not among them. *)
Lemma reload_and_evaluate_not_always_resumed :
  fst (reload_and_evaluate prompt_host "inject()" false
         (blank_tab (Some refused_breakpoint_socket)))
  = Raise (KeyError "result") /\
  (commands <$> (ws_log <$> websocket
     (snd (reload_and_evaluate prompt_host "inject()" false
             (blank_tab (Some refused_breakpoint_socket))))))
  = Some [numbered 1 debugger_enable;
          numbered 2 set_breakpoint;
          numbered 3 page_reload;
          numbered 4 (runtime_evaluate "inject()");
          numbered 5 (runtime_evaluate "inject()");
          numbered 6 (runtime_evaluate "inject()")].
Proof. split; vm_compute; reflexivity. Qed.

(** ** Discovery *)

Lemma get_tabs_loop_retries h n : forall res fuel k trace,
  (forall j, (j < n)%nat -> http_get h (k + j)%nat = Err ClientConnectorError) ->
  http_get h (k + n)%nat = Ok res ->
  (n < fuel)%nat ->
  get_tabs_loop h fuel k trace = Some (Ok res, trace ++ retry_trace n).
Proof.
  induction n as [|n IH]; intros res fuel k trace Hfail Hok Hfuel.
  - destruct fuel as [|fuel]; [lia|]. simpl.
    rewrite Nat.add_0_r in Hok. by rewrite Hok.
  - destruct fuel as [|fuel]; [lia|]. simpl.
    rewrite <- (Nat.add_0_r k) at 1. rewrite Hfail by lia. simpl.
    rewrite (IH res fuel (S k)); [|intros j Hj|..|lia].
    + unfold retry_trace. simpl. by rewrite <- !(assoc_L (++)).
    + replace (S k + j)%nat with (k + S j)%nat by lia. apply Hfail. lia.
    + by replace (S k + n)%nat with (k + S n)%nat by lia.
Qed.

Lemma get_tabs_reachable h n res fuel :
  reachable_after h n res -> (n < fuel)%nat ->
  get_tabs h fuel = Some (tabs_of_response res, retry_trace n).
Proof.
  intros [Hfail Hok] Hfuel. unfold get_tabs.
  by rewrite (get_tabs_loop_retries h n res fuel 0 []).
Qed.

(** C6: when the host refuses the first [n] connections and accepts the
    next, [get_tabs], given time for more than [n] attempts, sleeps 5 seconds
    after each refusal and returns what the accepted request yields: the
    same as from a host that accepts at once.  The refusal is never the
    outcome. *)
Theorem get_tabs_retries_until_connected (h : host) (n : nat)
    (res : http_response) (fuel : nat) :
  reachable_after h n res ->
  (n < fuel)%nat ->
  get_tabs h fuel = Some (tabs_of_response res, retry_trace n) /\
  sleeps (retry_trace n) = replicate n 5 /\
  fst <$> get_tabs h fuel
  = fst <$> get_tabs {| http_get := fun _ => Ok res; ws_connect := ws_connect h |} 1.
Proof.
  intros Hreach Hfuel.
  rewrite (get_tabs_reachable h n res fuel Hreach Hfuel).
  repeat split.
  unfold retry_trace, sleeps. rewrite omap_app. simpl.
  rewrite (right_id_L [] (++)).
  clear. induction n as [|n IH]; [done|].
  simpl. f_equal. exact IH.
Qed.

Lemma get_tabs_retries_until_connected_witness :
  get_tabs late_host 3
  = Some (Ok [], [HttpGet "http://localhost:8080/json"; Sleep 5;
                  HttpGet "http://localhost:8080/json"; Sleep 5;
                  HttpGet "http://localhost:8080/json"]) /\
  sleeps (retry_trace 2) = [5; 5] /\
  fst <$> get_tabs late_host 3
  = fst <$> get_tabs {| http_get := fun _ =>
                          Ok {| status := 200; resp_text := "[]";
                                resp_json := Ok (JArr []) |};
                        ws_connect := ws_connect late_host |} 1.
Proof.
  apply (get_tabs_retries_until_connected late_host 2
           {| status := 200; resp_text := "[]"; resp_json := Ok (JArr []) |} 3).
  - split; [|reflexivity].
    intros k Hk. destruct k as [|[|k]]; [reflexivity|reflexivity|lia].
  - lia.
Defined.

Lemma describes_init entry tab : describes entry tab -> Tab_init entry = Ok tab.
Proof.
  intros (o & -> & Ht & Hi & Hu & Hw & Hc & Hn).
  unfold Tab_init; simpl. rewrite Ht, Hi, Hu; simpl.
  destruct tab; simpl in *. by subst.
Qed.

Lemma comprehension_describes entries tabs :
  Forall2 describes entries tabs -> comprehension Tab_init entries = Ok tabs.
Proof.
  induction 1 as [|entry tab entries tabs Hd _ IH]; [done|].
  simpl. rewrite (describes_init _ _ Hd); simpl. by rewrite IH.
Qed.

(** C5 (as amended): once the host answers, a status other than 200 makes
    [get_tabs] raise an [Exception] whose message ends with the body of the
    response; a 200 response whose body is an array of tab descriptors
    yields one [Tab] per entry, in order, and the empty list for the empty
    array.  For a host that keeps this contract of the endpoint, [get_tabs]
    raises exactly when the status is not 200. *)
Theorem get_tabs_status (h : host) (n : nat) (res : http_response) (fuel : nat) :
  reachable_after h n res ->
  (n < fuel)%nat ->
  (status res <> 200 ->
   get_tabs h fuel
   = Some (Err (Exception ("/json did not return 200. " +:+ resp_text res)),
           retry_trace n)) /\
  (forall entries tabs,
     status res = 200 -> resp_json res = Ok (JArr entries) ->
     Forall2 describes entries tabs ->
     get_tabs h fuel = Some (Ok tabs, retry_trace n) /\
     length tabs = length entries) /\
  (status res = 200 -> resp_json res = Ok (JArr []) ->
   get_tabs h fuel = Some (Ok [], retry_trace n)) /\
  (listing_ok res -> (raises (get_tabs h fuel) <-> status res <> 200)).
Proof.
  intros Hreach Hfuel.
  rewrite (get_tabs_reachable h n res fuel Hreach Hfuel).
  unfold tabs_of_response.
  split; [|split; [|split; [|intros Hok; split]]].
  - intros Hs. apply Z.eqb_neq in Hs. by rewrite Hs.
  - intros entries tabs Hs Hj Hd.
    rewrite Hs, Z.eqb_refl, Hj; simpl.
    rewrite (comprehension_describes _ _ Hd).
    split; [done|]. symmetry. by eapply Forall2_length.
  - intros Hs Hj. by rewrite Hs, Z.eqb_refl, Hj.
  - intros (e & trace & Hr) Hs.
    destruct (Hok Hs) as (entries & tabs & Hj & Hd).
    rewrite Hs, Z.eqb_refl, Hj in Hr; simpl in Hr.
    rewrite (comprehension_describes _ _ Hd) in Hr. discriminate.
  - intros Hs. apply Z.eqb_neq in Hs. rewrite Hs. by eexists _, _.
Qed.

Lemma get_tabs_status_witness :
  get_tabs failing_host 1
  = Some (Err (Exception "/json did not return 200. internal error"),
          [HttpGet "http://localhost:8080/json"]) /\
  (get_tabs aba_host 1
   = Some (Ok [listed "A" "1"; listed "B" "2"; listed "A" "3"],
           [HttpGet "http://localhost:8080/json"]) /\
   length [listed "A" "1"; listed "B" "2"; listed "A" "3"]
   = length [descriptor "A" "1"; descriptor "B" "2"; descriptor "A" "3"]) /\
  (raises (get_tabs aba_host 1) <-> 200 <> 200).
Proof.
  destruct (get_tabs_status failing_host 0
              {| status := 500; resp_text := "internal error";
                 resp_json := Err JSONDecodeError |} 1)
    as (Hraise & _); [split; [intros k Hk; lia|reflexivity]|lia|].
  destruct (get_tabs_status aba_host 0
              {| status := 200; resp_text := "";
                 resp_json := Ok (JArr [descriptor "A" "1"; descriptor "B" "2";
                                        descriptor "A" "3"]) |} 1)
    as (_ & Hlist & _ & Hiff); [split; [intros k Hk; lia|reflexivity]|lia|].
  assert (Forall2 describes
            [descriptor "A" "1"; descriptor "B" "2"; descriptor "A" "3"]
            [listed "A" "1"; listed "B" "2"; listed "A" "3"]) as Hdesc.
  { repeat constructor; eexists;
      (split; [reflexivity|]); (split; [reflexivity|]); (split; [reflexivity|]);
      (split; [reflexivity|]); (split; [reflexivity|]); split; reflexivity. }
  split; [|split].
  - apply Hraise. simpl. lia.
  - apply (Hlist [descriptor "A" "1"; descriptor "B" "2"; descriptor "A" "3"]
             [listed "A" "1"; listed "B" "2"; listed "A" "3"]);
      [reflexivity|reflexivity|exact Hdesc].
  - apply Hiff. intros _.
    exists [descriptor "A" "1"; descriptor "B" "2"; descriptor "A" "3"],
           [listed "A" "1"; listed "B" "2"; listed "A" "3"].
    split; [reflexivity|exact Hdesc].
Defined.

(** Where the claim as stated fails: a reachable host can answer 200 and
    [get_tabs] still raise.  An entry of the listing without
    [webSocketDebuggerUrl] makes [Tab.__init__] raise [KeyError], and a body
    that is [null] cannot be iterated. *)
Lemma get_tabs_raises_on_status_200 :
  (exists res, http_get partial_host 0 = Ok res /\ status res = 200) /\
  get_tabs partial_host 1
  = Some (Err (KeyError "webSocketDebuggerUrl"), [HttpGet "http://localhost:8080/json"]) /\
  (exists res, http_get (body_host JNull) 0 = Ok res /\ status res = 200) /\
  get_tabs (body_host JNull) 1
  = Some (Err TypeError, [HttpGet "http://localhost:8080/json"]).
Proof.
  split; [eexists; split; reflexivity|].
  split; [vm_compute; reflexivity|].
  split; [eexists; split; reflexivity|].
  vm_compute; reflexivity.
Qed.

(** ** Resolution by title *)

Lemma py_eq_str_title (x : Tab) (name : string) :
  py_eq_str (title x) name = true <-> title x = JStr name.
Proof.
  destruct (title x); simpl; try (split; [discriminate|done]).
  rewrite bool_decide_eq_true. split; [by intros ->|by intros [= ->]].
Qed.

Lemma first_titled_found name pre tab post :
  Forall (fun x => title x <> JStr name) pre ->
  title tab = JStr name ->
  first_titled name (pre ++ tab :: post) = Some tab.
Proof.
  intros Hpre Htab. unfold first_titled.
  induction Hpre as [|x pre Hx _ IH]; simpl.
  - apply py_eq_str_title in Htab. by rewrite Htab.
  - destruct (py_eq_str (title x) name) eqn:Heq; [|done].
    by apply py_eq_str_title in Heq.
Qed.

Lemma first_titled_none name tabs :
  Forall (fun x => title x <> JStr name) tabs ->
  first_titled name tabs = None.
Proof.
  unfold first_titled. induction 1 as [|x tabs Hx _ IH]; simpl; [done|].
  destruct (py_eq_str (title x) name) eqn:Heq; [|done].
  by apply py_eq_str_title in Heq.
Qed.

Lemma get_tab_found h tab_name fuel trace pre tab post :
  get_tabs h fuel = Some (Ok (pre ++ tab :: post), trace) ->
  Forall (fun x => title x <> JStr tab_name) pre ->
  title tab = JStr tab_name ->
  get_tab h tab_name fuel = Some (Ok tab, trace).
Proof.
  intros Htabs Hpre Htab. unfold get_tab.
  by rewrite Htabs, first_titled_found.
Qed.

Lemma get_tab_not_found h tab_name fuel trace tabs :
  get_tabs h fuel = Some (Ok tabs, trace) ->
  Forall (fun x => title x <> JStr tab_name) tabs ->
  get_tab h tab_name fuel
  = Some (Err (ValueError ("Tab " +:+ tab_name +:+ " not found")), trace).
Proof.
  intros Htabs Hnone. unfold get_tab.
  by rewrite Htabs, first_titled_none.
Qed.

(** C4: of the tabs [get_tabs] returned, [get_tab] returns the first, in
    listing order, whose title is the string asked for, and raises
    [ValueError("Tab ... not found")] when there is none. *)
Theorem get_tab_first_match (h : host) (tab_name : string) (fuel : nat)
    (tabs : list Tab) (trace : list effect) :
  get_tabs h fuel = Some (Ok tabs, trace) ->
  (forall pre tab post,
     tabs = pre ++ tab :: post ->
     Forall (fun x => title x <> JStr tab_name) pre ->
     title tab = JStr tab_name ->
     get_tab h tab_name fuel = Some (Ok tab, trace)) /\
  (Forall (fun x => title x <> JStr tab_name) tabs ->
   get_tab h tab_name fuel
   = Some (Err (ValueError ("Tab " +:+ tab_name +:+ " not found")), trace)).
Proof.
  intros Htabs. split.
  - intros pre tab post -> Hpre Htab. by eapply get_tab_found.
  - intros Hnone. by apply (get_tab_not_found h tab_name fuel trace tabs).
Qed.

Lemma get_tab_first_match_witness :
  get_tab aba_host "A" 1
  = Some (Ok (listed "A" "1"), [HttpGet "http://localhost:8080/json"]) /\
  get_tab aba_host "C" 1
  = Some (Err (ValueError "Tab C not found"), [HttpGet "http://localhost:8080/json"]).
Proof.
  destruct (get_tab_first_match aba_host "A" 1
              [listed "A" "1"; listed "B" "2"; listed "A" "3"]
              [HttpGet "http://localhost:8080/json"] eq_refl) as [Hfirst _].
  destruct (get_tab_first_match aba_host "C" 1
              [listed "A" "1"; listed "B" "2"; listed "A" "3"]
              [HttpGet "http://localhost:8080/json"] eq_refl) as [_ Hnone].
  split.
  - apply (Hfirst [] (listed "A" "1") [listed "B" "2"; listed "A" "3"]);
      [reflexivity|constructor|reflexivity].
  - apply Hnone. repeat constructor; discriminate.
Defined.

(** ** The DOM-ready wrapper *)

(** C7: with [add_dom_wrapper=True] the method never gets to register
    anything.  The template is passed to [str.format] with its JavaScript
    braces single: the brace that opens the body of [scriptFunc] starts a
    replacement field, the brace of [{js}] then stands inside a field name,
    and [format] raises [ValueError].  This happens before the socket is
    opened: the tab is unchanged, nothing is sent, whatever the script. *)
Theorem add_dom_wrapper_raises (h : host) (js : string)
    (manage_socket get_result : bool) (self : Tab) :
  str_format wrapper_template [("js", js)]
  = Err (ValueError "unexpected '{' in field name") /\
  add_script_to_evaluate_on_new_document h js true manage_socket get_result self
  = (Raise (ValueError "unexpected '{' in field name"), self).
Proof. split; reflexivity. Qed.

(** Without the wrapper the script is registered as it is. *)
Lemma add_script_unwrapped (h : host) (js : string) (self : Tab) (w : websocket_t) :
  websocket self = Some w -> ws_closed w = false ->
  add_script_to_evaluate_on_new_document h js false false false self
  = (Ret JNull,
     session self (read_cmd_id self + 1)
       (advanced w
          [Sent (numbered (read_cmd_id self + 1)
                   (dict [("method", JStr "Page.addScriptToEvaluateOnNewDocument");
                          ("params", JObj (dict [("source", JStr js)]))]))]
          [] (ws_inbound w))).
Proof.
  intros Hw Hopen. unfold add_script_to_evaluate_on_new_document.
  rewrite (bind_step _ _ self self js eq_refl).
  rewrite (bind_step _ _ self self tt eq_refl).
  erewrite bind_step; [|by apply send_forget].
  reflexivity.
Qed.

(** ** Existence checks *)

Lemma result_value_object o :
  object_path o = true ->
  result_value (JObj o) = Ok (default (JBool false) (value_at o)).
Proof.
  unfold object_path, value_at, result_value; simpl.
  destruct (o !! "result") as [[| | | | | |r1]|] eqn:Ho; simpl; try done.
  destruct (r1 !! "result") as [[| | | | | |r2]|] eqn:Hr1; simpl; try done.
  intros _. by destruct (r2 !! "value").
Qed.

Lemma comprehension_fresh entries : forall tabs,
  comprehension Tab_init entries = Ok tabs ->
  Forall (fun t => websocket t = None /\ client t = None /\ cmd_id t = None) tabs.
Proof.
  induction entries as [|entry entries IH]; intros tabs; simpl.
  - by intros [= <-].
  - destruct (Tab_init entry) as [t|] eqn:Ht; simpl; [|discriminate].
    destruct (comprehension Tab_init entries) as [ts|]; simpl; [|discriminate].
    intros [= <-]. constructor; [|by apply IH].
    by eapply Tab_init_fresh.
Qed.

Lemma get_tabs_fresh h fuel tabs trace :
  get_tabs h fuel = Some (Ok tabs, trace) ->
  Forall (fun t => websocket t = None /\ client t = None /\ cmd_id t = None) tabs.
Proof.
  unfold get_tabs.
  destruct (get_tabs_loop h fuel 0 []) as [[[res|e] tr]|]; try discriminate.
  unfold tabs_of_response. destruct (status res =? 200); [|discriminate].
  destruct (resp_json res) as [r|]; simpl; [|discriminate].
  destruct (py_iter r) as [entries|]; simpl; [|discriminate].
  intros [= Hc <-]. by eapply comprehension_fresh.
Qed.

(** [evaluate_js] on a tab fresh from the listing, managing its socket:
    the command gets id 1 and the response to it is returned. *)
Lemma evaluate_js_fresh h js run_async (tab : Tab) noise reply rest e :
  cmd_id tab = None ->
  ws_connect h (ws_url tab) = (noise ++ reply :: rest, e) ->
  answered 1 noise reply ->
  fst (evaluate_js h js run_async true true tab) = Ret reply.
Proof.
  intros Hc Hws Hans. unfold evaluate_js.
  rewrite (bind_step _ _ _ _ _ (enter_socket h true tab)).
  erewrite bind_step.
  2:{ eapply (send_found_at 1) with (pre := noise) (m := reply); [apply entered_websocket|done|..|done].
      - simpl. by rewrite Hws.
      - rewrite entered_cmd_id. unfold read_cmd_id. by rewrite Hc. }
  match goal with
  | |- context [bind _ _ ?st] =>
      destruct (leave_socket_state h true tab st _ eq_refl eq_refl)
        as (st' & w' & Hleave & _)
  end.
  unfold bind in *.
  match goal with
  | H : context [close_websocket ?st] |- _ => destruct (close_websocket st) as [[[]| |] st'']
  end; simpl in *; congruence.
Qed.

(** C8 (as amended): what [tab_has_global_var] makes of the listing.  When
    no tab has the title it returns [False]: the [ValueError] of [get_tab]
    is caught.  When a tab has it and the host answers the evaluation with an
    object on which [result] and [result.result], where present, are objects,
    it returns the value under [result.result.value], and [False] when a key
    of the path is missing.  An exception of [get_tabs] is caught only if it
    is a [ValueError]; any other, such as the [Exception] for a status other
    than 200, reaches the caller. *)
Theorem tab_has_global_var_contract (h : host) (tab_name var_name : string)
    (fuel : nat) (r : result (list Tab)) (trace : list effect) :
  get_tabs h fuel = Some (r, trace) ->
  match r with
  | Err e =>
      tab_has_global_var h tab_name var_name fuel
      = Some (if is_ValueError e then Ret (JBool false) else Raise e, trace)
  | Ok tabs =>
      (Forall (fun x => title x <> JStr tab_name) tabs ->
       tab_has_global_var h tab_name var_name fuel = Some (Ret (JBool false), trace)) /\
      (forall pre tab post noise o rest e,
         tabs = pre ++ tab :: post ->
         Forall (fun x => title x <> JStr tab_name) pre ->
         title tab = JStr tab_name ->
         ws_connect h (ws_url tab) = (noise ++ JObj o :: rest, e) ->
         answered 1 noise (JObj o) ->
         object_path o = true ->
         tab_has_global_var h tab_name var_name fuel
         = Some (Ret (default (JBool false) (value_at o)), trace))
  end.
Proof.
  intros Htabs. destruct r as [tabs|e].
  - split.
    + intros Hno. unfold tab_has_global_var.
      by rewrite (get_tab_not_found h tab_name fuel trace tabs Htabs Hno).
    + intros pre tab post noise o rest e Hsplit Hpre Htab Hws Hans Hpath.
      unfold tab_has_global_var.
      rewrite (get_tab_found h tab_name fuel trace pre tab post) by (by subst tabs).
      assert (cmd_id tab = None) as Hc.
      { pose proof (get_tabs_fresh h fuel tabs trace Htabs) as Hfresh.
        rewrite Hsplit in Hfresh.
        apply Forall_app in Hfresh as [_ Hfresh].
        apply Forall_cons in Hfresh as [(_ & _ & Hfresh) _]. exact Hfresh. }
      do 2 f_equal. unfold bind at 1.
      match goal with
      | |- context [evaluate_js h ?js false true true tab] =>
          pose proof (evaluate_js_fresh h js false tab noise (JObj o) rest e
                        Hc Hws Hans) as Hev;
          destruct (evaluate_js h js false true true tab) as [res st]
      end.
      simpl in Hev. subst res. by rewrite result_value_object.
  - unfold tab_has_global_var, get_tab. rewrite Htabs.
    by destruct (is_ValueError e).
Qed.

Lemma tab_has_global_var_contract_witness :
  tab_has_global_var (tab1_host [JObj (value_response (JBool true))]) "Tab1" "foo" 1
  = Some (Ret (JBool true), [HttpGet "http://localhost:8080/json"]) /\
  tab_has_global_var (tab1_host [JObj (value_response (JBool false))]) "Tab1" "foo" 1
  = Some (Ret (JBool false), [HttpGet "http://localhost:8080/json"]) /\
  tab_has_global_var (tab1_host [JObj (dict [("id", JInt 1)])]) "Tab1" "foo" 1
  = Some (Ret (JBool false), [HttpGet "http://localhost:8080/json"]) /\
  tab_has_global_var (tab1_host []) "Tab2" "foo" 1
  = Some (Ret (JBool false), [HttpGet "http://localhost:8080/json"]).
Proof.
  assert (forall o, responds_to 1 (JObj o) = true -> object_path o = true ->
    tab_has_global_var (tab1_host [JObj o]) "Tab1" "foo" 1
    = Some (Ret (default (JBool false) (value_at o)),
            [HttpGet "http://localhost:8080/json"])) as Hfound.
  { intros o Hreply Hpath.
    destruct (tab_has_global_var_contract (tab1_host [JObj o]) "Tab1" "foo" 1
                (Ok [listed "Tab1" "1"]) [HttpGet "http://localhost:8080/json"]
                eq_refl) as [_ Hfound].
    apply (Hfound [] (listed "Tab1" "1") [] [] o [] Closed);
      [reflexivity|constructor|reflexivity|reflexivity| |exact Hpath].
    split; [constructor|exact Hreply]. }
  split; [|split; [|split]].
  - apply (Hfound (value_response (JBool true))); vm_compute; reflexivity.
  - apply (Hfound (value_response (JBool false))); vm_compute; reflexivity.
  - apply (Hfound (dict [("id", JInt 1)])); vm_compute; reflexivity.
  - destruct (tab_has_global_var_contract (tab1_host []) "Tab2" "foo" 1
                (Ok [listed "Tab1" "1"]) [HttpGet "http://localhost:8080/json"]
                eq_refl) as [Hnone _].
    apply Hnone. repeat constructor. discriminate.
Defined.

(** Where the claim as stated fails: a response whose [result] is not an
    object makes the membership test raise [TypeError], and the error of a
    listing that answered 500 is not caught. *)
Lemma tab_has_global_var_raises :
  tab_has_global_var
    (tab1_host [JObj (dict [("id", JInt 1); ("result", JNull)])]) "Tab1" "foo" 1
  = Some (Raise TypeError, [HttpGet "http://localhost:8080/json"]) /\
  tab_has_global_var failing_host "Tab1" "foo" 1
  = Some (Raise (Exception "/json did not return 200. internal error"),
          [HttpGet "http://localhost:8080/json"]).
Proof. split; vm_compute; reflexivity. Qed.


(** * Further properties of the module *)

(** ** Ids and messages *)

Lemma float_eq_int_unique f n m :
  float_eq_int f n = true -> float_eq_int f m = true -> n = m.
Proof.
  destruct f as [s|s| |s p e]; simpl; try discriminate.
  - intros Hn Hm. apply Z.eqb_eq in Hn, Hm. congruence.
  - destruct (0 <=? e) eqn:He; intros Hn Hm; apply Z.eqb_eq in Hn, Hm.
    + congruence.
    + apply Z.leb_gt in He.
      assert (0 < 2 ^ (- e)) as Hpow by (apply Z.pow_pos_nonneg; lia).
      rewrite Hn in Hm. apply Z.mul_reg_r in Hm; lia.
Qed.

Lemma py_eq_int_unique v n m :
  py_eq_int v n = true -> py_eq_int v m = true -> n = m.
Proof.
  destruct v as [|b|k|f| | |]; simpl; try discriminate.
  - intros Hn Hm. apply Z.eqb_eq in Hn, Hm. congruence.
  - intros Hn Hm. apply Z.eqb_eq in Hn, Hm. congruence.
  - apply float_eq_int_unique.
Qed.

Lemma responds_to_other n m msg :
  responds_to n msg = true -> n <> m -> unsolicited m msg = true.
Proof.
  destruct msg as [| | | | | |o]; simpl; try discriminate.
  destruct (o !! "id") as [v|]; [|discriminate].
  intros Hn Hne. apply negb_true_iff.
  destruct (py_eq_int v m) eqn:Hm; [|done].
  destruct Hne. by eapply py_eq_int_unique.
Qed.

Lemma is_reply_inert n msg : inert msg = true -> is_reply n msg = Ok false.
Proof.
  destruct msg as [| | | |s|l|o]; simpl; try discriminate;
    unfold is_reply; simpl; intros Hi; apply negb_true_iff in Hi; by rewrite Hi.
Qed.

Lemma is_reply_unreadable n msg : unreadable msg = true -> is_reply n msg = Err TypeError.
Proof.
  destruct msg as [| | | |s|l|o]; simpl; try discriminate; try done;
    unfold is_reply; simpl; by intros ->.
Qed.

Lemma listen_fault n pre m rest w e :
  Forall (fun x => is_reply n x = Ok false) pre ->
  is_reply n m = Err e ->
  listen_for_message n (pre ++ m :: rest) w
  = (Raise e, advanced w [] (pre ++ [m]) rest).
Proof.
  intros Hpre Hm. revert w.
  induction Hpre as [|x pre Hx _ IH]; intros w; simpl.
  - by rewrite Hm.
  - rewrite Hx, IH. unfold advanced; simpl.
    by rewrite <- (assoc_L (++)).
Qed.

Lemma send_fault dc self w pre m rest e :
  websocket self = Some w -> ws_closed w = false ->
  ws_inbound w = pre ++ m :: rest ->
  Forall (fun x => is_reply (read_cmd_id self + 1) x = Ok false) pre ->
  is_reply (read_cmd_id self + 1) m = Err e ->
  _send_devtools_cmd dc true self
  = (Raise e,
     session self (read_cmd_id self + 1)
       (advanced w [Sent (numbered (read_cmd_id self + 1) dc)] (pre ++ [m]) rest)).
Proof.
  intros Hw Hc Hin Hpre Hm. destruct self as [t i u ws cl c]; simpl in *. subst ws.
  unfold _send_devtools_cmd, send_json, await_reply, bind, get_self, update; simpl.
  rewrite Hc; simpl. rewrite Hin.
  unfold read_cmd_id in *; simpl in *.
  rewrite (listen_fault _ pre m rest _ e) by done.
  same_tab.
Qed.

(** X1: a frame that is not a JSON object is not simply discarded by the
    awaited read.  A string or a list without [id] is passed over like an
    event; but a number, a boolean, [null], a string containing [id] or a
    list holding the string [id] makes the test of line 45 raise
    [TypeError] out of [_send_devtools_cmd].  The command was written and
    its id consumed; the frames behind the offending one stay on the stream
    and the connection stays open. *)
Theorem unreadable_frame_raises (dc : gmap string json) (self : Tab)
    (w : websocket_t) (pre : list json) (m : json) (rest : list json) :
  websocket self = Some w ->
  ws_closed w = false ->
  ws_inbound w = pre ++ m :: rest ->
  Forall (fun x => unsolicited (read_cmd_id self + 1) x = true \/ inert x = true) pre ->
  unreadable m = true ->
  fst (_send_devtools_cmd dc true self) = Raise TypeError /\
  read_cmd_id (snd (_send_devtools_cmd dc true self)) = read_cmd_id self + 1 /\
  exists w' : websocket_t,
    websocket (snd (_send_devtools_cmd dc true self)) = Some w' /\
    ws_closed w' = false /\
    ws_inbound w' = rest /\
    commands (ws_log w')
    = commands (ws_log w) ++ [numbered (read_cmd_id self + 1) dc].
Proof.
  intros Hw Hopen Hin Hpre Hm.
  assert (Forall (fun x => is_reply (read_cmd_id self + 1) x = Ok false) pre) as Hskip.
  { eapply Forall_impl; [exact Hpre|]. intros x [Hx|Hx].
    - by apply is_reply_unsolicited.
    - by apply is_reply_inert. }
  rewrite (send_fault dc self w pre m rest TypeError Hw Hopen Hin Hskip
             (is_reply_unreadable _ _ Hm)).
  split; [done|]. split; [done|].
  eexists. split; [reflexivity|]. split; [exact Hopen|]. split; [reflexivity|].
  unfold advanced; cbn [ws_log].
  rewrite !commands_app, commands_received.
  by rewrite (right_id_L [] (++)).
Qed.

Lemma unreadable_frame_raises_witness :
  fst (_send_devtools_cmd page_reload true (blank_tab (Some number_socket)))
  = Raise TypeError /\
  read_cmd_id (snd (_send_devtools_cmd page_reload true
                      (blank_tab (Some number_socket)))) = 1 /\
  exists w' : websocket_t,
    websocket (snd (_send_devtools_cmd page_reload true
                      (blank_tab (Some number_socket)))) = Some w' /\
    ws_closed w' = false /\
    ws_inbound w' = [response 1 []] /\
    commands (ws_log w') = [numbered 1 page_reload].
Proof.
  apply (unreadable_frame_raises page_reload (blank_tab (Some number_socket))
           number_socket [JObj (dict [("method", JStr "Page.loaded")])]
           (JInt 5) [response 1 []]).
  - reflexivity.
  - reflexivity.
  - reflexivity.
  - constructor; [left; reflexivity|constructor].
  - reflexivity.
Defined.

(** X2: a command that is not awaited leaves its response on the stream;
    the next awaited command reads that response first and passes over it,
    because a message can equal only one id, and returns its own.  So the
    late response to a fire-and-forget command is never taken for the
    response to the command that follows it. *)
Theorem late_response_is_skipped (dc1 dc2 : gmap string json) (self : Tab)
    (w : websocket_t) (late : json) (noise : list json) (reply : json)
    (rest : list json) :
  websocket self = Some w ->
  ws_closed w = false ->
  ws_inbound w = late :: noise ++ reply :: rest ->
  responds_to (read_cmd_id self + 1) late = true ->
  answered (read_cmd_id self + 2) noise reply ->
  let run := (_send_devtools_cmd dc1 false ;; _send_devtools_cmd dc2 true) self in
  fst run = Ret reply /\
  exists w' : websocket_t,
    websocket (snd run) = Some w' /\
    ws_inbound w' = rest /\
    ws_log w'
    = ws_log w
      ++ Sent (numbered (read_cmd_id self + 1) dc1)
      :: Sent (numbered (read_cmd_id self + 2) dc2)
      :: Received late :: (Received <$> noise ++ [reply]).
Proof.
  intros Hw Hopen Hin Hlate [Hnoise Hreply] run. subst run.
  erewrite bind_step; [|by apply (send_forget_at (read_cmd_id self + 1))].
  erewrite (send_found_at (read_cmd_id self + 2)) with (pre := late :: noise) (m := reply);
    [|reflexivity|exact Hopen|simpl; exact Hin|rewrite session_cmd_id; lia|].
  2:{ split; [|exact Hreply]. constructor; [|exact Hnoise].
      eapply responds_to_other; [exact Hlate|lia]. }
  split; [done|]. eexists. split; [reflexivity|]. split; [reflexivity|].
  simpl. rewrite <- !(assoc_L (++)). reflexivity.
Qed.

Lemma late_response_is_skipped_witness :
  fst ((_send_devtools_cmd page_enable false ;; _send_devtools_cmd page_reload true)
         (blank_tab (Some answering_socket)))
  = Ret (response 2 [("identifier", JStr "7")]) /\
  exists w' : websocket_t,
    websocket (snd ((_send_devtools_cmd page_enable false ;;
                     _send_devtools_cmd page_reload true)
                      (blank_tab (Some answering_socket)))) = Some w' /\
    ws_inbound w' = [] /\
    ws_log w'
    = [Sent (numbered 1 page_enable); Sent (numbered 2 page_reload);
       Received (response 1 []);
       Received (JObj (dict [("method", JStr "Page.loaded")]));
       Received (response 2 [("identifier", JStr "7")])].
Proof.
  apply (late_response_is_skipped page_enable page_reload
           (blank_tab (Some answering_socket)) answering_socket
           (response 1 []) [JObj (dict [("method", JStr "Page.loaded")])]
           (response 2 [("identifier", JStr "7")]) []).
  - reflexivity.
  - reflexivity.
  - reflexivity.
  - reflexivity.
  - split; [repeat constructor|reflexivity].
Defined.

(** ** Sessions that are not open *)

(** X3: every method that sends on the caller's connection
    ([manage_socket=False], and [enable], [disable], which have no such
    flag) fails on a tab that was never opened with the
    [RuntimeError("Websocket not opened")] of [_send_devtools_cmd], and
    leaves the tab as it found it. *)
Theorem unopened_methods_raise (h : host) (js : string)
    (run_async get_result : bool) (script_id : json) (self : Tab) :
  websocket self = None ->
  evaluate_js h js run_async false get_result self
  = (Raise (RuntimeError "Websocket not opened"), self) /\
  enable self = (Raise (RuntimeError "Websocket not opened"), self) /\
  disable self = (Raise (RuntimeError "Websocket not opened"), self) /\
  reload_and_evaluate h js false self
  = (Raise (RuntimeError "Websocket not opened"), self) /\
  add_script_to_evaluate_on_new_document h js false false get_result self
  = (Raise (RuntimeError "Websocket not opened"), self) /\
  remove_script_to_evaluate_on_new_document h script_id false self
  = (Raise (RuntimeError "Websocket not opened"), self).
Proof.
  intros Hw.
  unfold evaluate_js, enable, disable, reload_and_evaluate,
    add_script_to_evaluate_on_new_document,
    remove_script_to_evaluate_on_new_document.
  split; [|split; [|split; [|split; [|split]]]];
    unfold bind, ret; by rewrite send_unopened.
Qed.

Lemma unopened_methods_raise_witness :
  evaluate_js prompt_host "1+1" false false true (listed "SP" "0")
  = (Raise (RuntimeError "Websocket not opened"), listed "SP" "0") /\
  enable (listed "SP" "0")
  = (Raise (RuntimeError "Websocket not opened"), listed "SP" "0") /\
  disable (listed "SP" "0")
  = (Raise (RuntimeError "Websocket not opened"), listed "SP" "0") /\
  reload_and_evaluate prompt_host "1+1" false (listed "SP" "0")
  = (Raise (RuntimeError "Websocket not opened"), listed "SP" "0") /\
  add_script_to_evaluate_on_new_document prompt_host "1+1" false false true
    (listed "SP" "0")
  = (Raise (RuntimeError "Websocket not opened"), listed "SP" "0") /\
  remove_script_to_evaluate_on_new_document prompt_host (JStr "7") false
    (listed "SP" "0")
  = (Raise (RuntimeError "Websocket not opened"), listed "SP" "0").
Proof.
  apply (unopened_methods_raise prompt_host "1+1" false true (JStr "7")
           (listed "SP" "0")).
  reflexivity.
Defined.

Lemma reclosed_websocket h self :
  websocket (reclosed h self)
  = Some {| ws_inbound := fst (ws_connect h (ws_url self));
            ws_end := snd (ws_connect h (ws_url self));
            ws_closed := true; ws_log := [] |}.
Proof.
  pose proof (entered_websocket h self) as Hw.
  pose proof (entered_client h self) as Hcl.
  unfold reclosed, close_websocket, bind, get_self, update.
  destruct (entered h true self) as [t i u ws cl c]; simpl in *.
  by subst ws cl.
Qed.

Lemma reclosed_cmd_id h self : read_cmd_id (reclosed h self) = read_cmd_id self.
Proof.
  pose proof (entered_cmd_id h true self) as Hc.
  pose proof (entered_client h self) as Hcl.
  unfold reclosed, close_websocket, bind, get_self, update.
  destruct (entered h true self) as [t i u ws cl c]; simpl in *.
  by subst cl.
Qed.

(** X4: [close_websocket] does not bring the tab back to the unopened
    state.  [self.websocket] still holds the connection object, so on a tab
    that was opened and closed the guard of [_send_devtools_cmd] is passed:
    the call does not fail with "Websocket not opened", and it spends an
    id on a command that is handed to a closed connection. *)
Theorem closed_session_passes_guard (h : host) (dc : gmap string json)
    (receive : bool) (self : Tab) :
  websocket (reclosed h self) <> None /\
  fst (_send_devtools_cmd dc receive (reclosed h self))
  <> Raise (RuntimeError "Websocket not opened") /\
  read_cmd_id (snd (_send_devtools_cmd dc receive (reclosed h self)))
  = read_cmd_id self + 1.
Proof.
  pose proof (reclosed_websocket h self) as Hw.
  pose proof (reclosed_cmd_id h self) as Hc.
  split; [by rewrite Hw|].
  destruct (reclosed h self) as [t i u ws cl c]; simpl in *. subst ws.
  unfold _send_devtools_cmd, send_json, bind, get_self, update; simpl.
  split; [done|]. unfold read_cmd_id in *; simpl in *. by rewrite Hc.
Qed.

(** X5: opening a connection does not reset the counter.  The first
    command written on a connection that was just opened carries the id
    after the last one the tab used before, on whatever connection, and is
    the only entry of the new log. *)
Theorem reopened_connection_continues_ids (h : host) (dc : gmap string json)
    (self : Tab) :
  let run := _send_devtools_cmd dc false (entered h true self) in
  fst run = Ret JNull /\
  read_cmd_id (snd run) = read_cmd_id self + 1 /\
  exists w' : websocket_t,
    websocket (snd run) = Some w' /\
    ws_log w' = [Sent (numbered (read_cmd_id self + 1) dc)] /\
    ws_inbound w' = fst (ws_connect h (ws_url self)).
Proof.
  intros run. subst run.
  erewrite (send_forget_at (read_cmd_id self + 1));
    [|apply entered_websocket|reflexivity|by rewrite entered_cmd_id].
  split; [done|]. split; [done|].
  eexists. split; [reflexivity|]. split; reflexivity.
Qed.

(** ** Methods with a [manage_socket] flag *)

Lemma leave_socket_exact (h : host) (manage_socket : bool) (self st : Tab) w0 :
  client st = client (entered h manage_socket self) ->
  websocket st = Some w0 ->
  (if manage_socket then close_websocket else ret tt) st
  = (Ret tt,
     if manage_socket
     then set_websocket (Some (shut w0))
            (set_client (Some {| session_closed := true |}) st)
     else st).
Proof.
  intros Hcl Hw0. destruct manage_socket; [|done].
  rewrite entered_client in Hcl.
  unfold close_websocket, bind, get_self, update, ret. by rewrite Hcl, Hw0.
Qed.

(** The three methods that send one command between the optional opening
    and closing of the socket, when the command is answered. *)
Lemma managed_command_answered (h : host) (dc : gmap string json)
    (manage_socket : bool) (self : Tab) (w : websocket_t)
    (noise : list json) (reply : json) (rest : list json) :
  websocket (entered h manage_socket self) = Some w ->
  ws_closed w = false ->
  ws_inbound w = noise ++ reply :: rest ->
  answered (read_cmd_id self + 1) noise reply ->
  let run :=
    ((if manage_socket then open_websocket h else ret tt) ;;
     let* res := _send_devtools_cmd dc true in
     (if manage_socket then close_websocket else ret tt) ;;
     ret res) self in
  fst run = Ret reply /\
  read_cmd_id (snd run) = read_cmd_id self + 1 /\
  exists w' : websocket_t,
    websocket (snd run) = Some w' /\
    ws_closed w' = manage_socket /\
    ws_inbound w' = rest /\
    commands (ws_log w')
    = commands (ws_log w) ++ [numbered (read_cmd_id self + 1) dc].
Proof.
  intros Hw Hopen Hin Hans run. subst run.
  rewrite (bind_step _ _ _ _ _ (enter_socket h manage_socket self)).
  erewrite bind_step;
    [|eapply (send_found_at (read_cmd_id self + 1)) with (pre := noise) (m := reply);
      [exact Hw|exact Hopen|exact Hin|by rewrite entered_cmd_id|exact Hans]].
  erewrite bind_step; [|by eapply (leave_socket_exact h manage_socket self)].
  unfold ret. cbn [fst snd].
  split; [done|]. split.
  { destruct manage_socket; reflexivity. }
  exists (if manage_socket
          then shut (advanced w [Sent (numbered (read_cmd_id self + 1) dc)]
                       (noise ++ [reply]) rest)
          else advanced w [Sent (numbered (read_cmd_id self + 1) dc)]
                 (noise ++ [reply]) rest).
  destruct manage_socket; cbn [websocket set_websocket session ws_closed shut
                               ws_inbound advanced ws_log];
    (split; [reflexivity|]); (split; [done|]); (split; [reflexivity|]);
    rewrite !commands_app, commands_received; by rewrite (right_id_L [] (++)).
Qed.

(** X6: [evaluate_js] with [get_result=True] returns the message with
    which the host answers the evaluation (the whole message, after any
    events), having written the one command with its expression and flags.
    With [manage_socket=True] the connection it opened is closed when it
    returns; with [manage_socket=False] the caller's connection is left open,
    positioned just behind the response. *)
Theorem evaluate_js_returns_reply (h : host) (js : string)
    (run_async manage_socket : bool) (self : Tab) (w : websocket_t)
    (noise : list json) (reply : json) (rest : list json) :
  websocket (entered h manage_socket self) = Some w ->
  ws_closed w = false ->
  ws_inbound w = noise ++ reply :: rest ->
  answered (read_cmd_id self + 1) noise reply ->
  let run := evaluate_js h js run_async manage_socket true self in
  fst run = Ret reply /\
  read_cmd_id (snd run) = read_cmd_id self + 1 /\
  exists w' : websocket_t,
    websocket (snd run) = Some w' /\
    ws_closed w' = manage_socket /\
    ws_inbound w' = rest /\
    commands (ws_log w')
    = commands (ws_log w)
      ++ [numbered (read_cmd_id self + 1) (evaluate_command js run_async)].
Proof.
  intros Hw Hopen Hin Hans.
  exact (managed_command_answered h (evaluate_command js run_async)
           manage_socket self w noise reply rest Hw Hopen Hin Hans).
Qed.

Lemma evaluate_js_returns_reply_witness :
  fst (evaluate_js prompt_host "document.title" true false true
         (blank_tab (Some answering_socket))) = Ret (response 1 []) /\
  read_cmd_id (snd (evaluate_js prompt_host "document.title" true false true
                      (blank_tab (Some answering_socket)))) = 1 /\
  exists w' : websocket_t,
    websocket (snd (evaluate_js prompt_host "document.title" true false true
                      (blank_tab (Some answering_socket)))) = Some w' /\
    ws_closed w' = false /\
    ws_inbound w' = [JObj (dict [("method", JStr "Page.loaded")]);
                     response 2 [("identifier", JStr "7")]] /\
    commands (ws_log w') = [numbered 1 (evaluate_command "document.title" true)].
Proof.
  apply (evaluate_js_returns_reply prompt_host "document.title" true false
           (blank_tab (Some answering_socket)) answering_socket
           [] (response 1 [])
           [JObj (dict [("method", JStr "Page.loaded")]);
            response 2 [("identifier", JStr "7")]]).
  - reflexivity.
  - reflexivity.
  - reflexivity.
  - split; [constructor|reflexivity].
Defined.

(** X7: without the DOM wrapper, [add_script_to_evaluate_on_new_document]
    registers the script text unchanged as [params.source], and with
    [get_result=True] what it returns is the host's whole response message,
    not the identifier inside it. *)
Theorem add_script_without_wrapper (h : host) (js : string)
    (manage_socket : bool) (self : Tab) (w : websocket_t)
    (noise : list json) (reply : json) (rest : list json) :
  websocket (entered h manage_socket self) = Some w ->
  ws_closed w = false ->
  ws_inbound w = noise ++ reply :: rest ->
  answered (read_cmd_id self + 1) noise reply ->
  let run := add_script_to_evaluate_on_new_document h js false manage_socket true self in
  fst run = Ret reply /\
  read_cmd_id (snd run) = read_cmd_id self + 1 /\
  exists w' : websocket_t,
    websocket (snd run) = Some w' /\
    ws_closed w' = manage_socket /\
    ws_inbound w' = rest /\
    commands (ws_log w')
    = commands (ws_log w)
      ++ [numbered (read_cmd_id self + 1) (add_script_command js)].
Proof.
  intros Hw Hopen Hin Hans run. subst run.
  unfold add_script_to_evaluate_on_new_document.
  rewrite (bind_step _ _ self self js eq_refl).
  exact (managed_command_answered h (add_script_command js)
           manage_socket self w noise reply rest Hw Hopen Hin Hans).
Qed.

Lemma add_script_without_wrapper_witness :
  fst (add_script_to_evaluate_on_new_document prompt_host "init()" false false true
         (blank_tab (Some answering_socket))) = Ret (response 1 []) /\
  read_cmd_id (snd (add_script_to_evaluate_on_new_document prompt_host "init()"
                      false false true (blank_tab (Some answering_socket)))) = 1 /\
  exists w' : websocket_t,
    websocket (snd (add_script_to_evaluate_on_new_document prompt_host "init()"
                      false false true (blank_tab (Some answering_socket))))
    = Some w' /\
    ws_closed w' = false /\
    ws_inbound w' = [JObj (dict [("method", JStr "Page.loaded")]);
                     response 2 [("identifier", JStr "7")]] /\
    commands (ws_log w') = [numbered 1 (add_script_command "init()")].
Proof.
  apply (add_script_without_wrapper prompt_host "init()" false
           (blank_tab (Some answering_socket)) answering_socket
           [] (response 1 [])
           [JObj (dict [("method", JStr "Page.loaded")]);
            response 2 [("identifier", JStr "7")]]).
  - reflexivity.
  - reflexivity.
  - reflexivity.
  - split; [constructor|reflexivity].
Defined.

(** X8: [remove_script_to_evaluate_on_new_document] writes its one command
    and reads nothing: every frame the host sent, the response to the
    removal included, is still on the stream when it returns, and with
    [manage_socket=True] the connection is closed right after the write. *)
Theorem remove_script_reads_nothing (h : host) (script_id : json)
    (manage_socket : bool) (self : Tab) (w : websocket_t) :
  websocket (entered h manage_socket self) = Some w ->
  ws_closed w = false ->
  let run := remove_script_to_evaluate_on_new_document h script_id manage_socket self in
  fst run = Ret tt /\
  read_cmd_id (snd run) = read_cmd_id self + 1 /\
  exists w' : websocket_t,
    websocket (snd run) = Some w' /\
    ws_closed w' = manage_socket /\
    ws_inbound w' = ws_inbound w /\
    ws_log w'
    = ws_log w ++ [Sent (numbered (read_cmd_id self + 1)
                           (remove_script_command script_id))].
Proof.
  intros Hw Hopen run. subst run.
  unfold remove_script_to_evaluate_on_new_document.
  rewrite (bind_step _ _ _ _ _ (enter_socket h manage_socket self)).
  erewrite bind_step;
    [|eapply (send_forget_at (read_cmd_id self + 1));
      [exact Hw|exact Hopen|by rewrite entered_cmd_id]].
  erewrite bind_step; [|by eapply (leave_socket_exact h manage_socket self)].
  unfold ret. cbn [fst snd].
  split; [done|]. split.
  { destruct manage_socket; reflexivity. }
  exists (if manage_socket
          then shut (advanced w [Sent (numbered (read_cmd_id self + 1)
                                         (remove_script_command script_id))]
                       [] (ws_inbound w))
          else advanced w [Sent (numbered (read_cmd_id self + 1)
                                   (remove_script_command script_id))]
                 [] (ws_inbound w)).
  destruct manage_socket; cbn [websocket set_websocket session ws_closed shut
                               ws_inbound advanced ws_log];
    (split; [reflexivity|]); (split; [done|]); (split; [reflexivity|]);
    reflexivity.
Qed.

Lemma remove_script_reads_nothing_witness :
  fst (remove_script_to_evaluate_on_new_document prompt_host (JStr "7") true
         (listed "SP" "0")) = Ret tt /\
  read_cmd_id (snd (remove_script_to_evaluate_on_new_document prompt_host
                      (JStr "7") true (listed "SP" "0"))) = 1 /\
  exists w' : websocket_t,
    websocket (snd (remove_script_to_evaluate_on_new_document prompt_host
                      (JStr "7") true (listed "SP" "0"))) = Some w' /\
    ws_closed w' = true /\
    ws_inbound w' = [response 1 []; response 2 []; response 3 []] /\
    ws_log w' = [Sent (numbered 1 (remove_script_command (JStr "7")))].
Proof.
  apply (remove_script_reads_nothing prompt_host (JStr "7") true (listed "SP" "0")
           {| ws_inbound := [response 1 []; response 2 []; response 3 []];
              ws_end := Closed; ws_closed := false; ws_log := [] |}).
  - reflexivity.
  - reflexivity.
Defined.

(** ** Reading the value out of a response *)

Lemma value_at_getitem o v :
  value_at o = Some v ->
  (r1 ← py_getitem (JObj o) "result"; r2 ← py_getitem r1 "result";
   py_getitem r2 "value") = Ok v.
Proof.
  unfold value_at; simpl.
  destruct (o !! "result") as [[| | | | | |r1]|]; simpl; try discriminate.
  destruct (r1 !! "result") as [[| | | | | |r2]|]; simpl; try discriminate.
  by intros ->.
Qed.

Lemma missing_key_getitem o k :
  missing_key o = Some k ->
  (r1 ← py_getitem (JObj o) "result"; r2 ← py_getitem r1 "result";
   py_getitem r2 "value") = Err (KeyError k).
Proof.
  unfold missing_key; simpl.
  destruct (o !! "result") as [[| | | | | |r1]|]; simpl; try discriminate;
    [|by intros [= <-]].
  destruct (r1 !! "result") as [[| | | | | |r2]|]; simpl; try discriminate;
    [|by intros [= <-]].
  destruct (r2 !! "value"); simpl; [discriminate|by intros [= <-]].
Qed.

(** X9: [get_steam_resource] opens its own connection, evaluates the fetch
    expression and returns what lies under [result.result.value] of the
    response.  Unlike the two existence checks it does not test for the
    keys: when one of them is missing from the object that should hold it,
    the subscript raises [KeyError] with that key. *)
Theorem get_steam_resource_value (h : host) (url : string) (self : Tab)
    (noise : list json) (o : gmap string json) (rest : list json) (e : ending) :
  ws_connect h (ws_url self) = (noise ++ JObj o :: rest, e) ->
  answered (read_cmd_id self + 1) noise (JObj o) ->
  (forall v, value_at o = Some v ->
             fst (get_steam_resource h url self) = Ret v) /\
  (forall k, missing_key o = Some k ->
             fst (get_steam_resource h url self) = Raise (KeyError k)).
Proof.
  intros Hws Hans.
  assert (forall js, fst (evaluate_js h js true true true self) = Ret (JObj o)) as Hev.
  { intros js.
    apply (managed_command_answered h (evaluate_command js true) true self
             {| ws_inbound := fst (ws_connect h (ws_url self));
                ws_end := snd (ws_connect h (ws_url self));
                ws_closed := false; ws_log := [] |} noise (JObj o) rest).
    - apply entered_websocket.
    - reflexivity.
    - simpl. by rewrite Hws.
    - exact Hans. }
  unfold get_steam_resource, bind.
  match goal with
  | |- context [evaluate_js h ?js true true true self] =>
      specialize (Hev js); destruct (evaluate_js h js true true true self) as [r st]
  end.
  simpl in Hev. subst r. split.
  - intros v Hv. by rewrite (value_at_getitem o v Hv).
  - intros k Hk. by rewrite (missing_key_getitem o k Hk).
Qed.

Lemma get_steam_resource_value_witness :
  (forall v, value_at (value_response (JStr "body")) = Some v ->
     fst (get_steam_resource (tab1_host [JObj (value_response (JStr "body"))])
            "https://steamloopback.host/index.html" (listed "Tab1" "1")) = Ret v) /\
  (forall k, missing_key (value_response (JStr "body")) = Some k ->
     fst (get_steam_resource (tab1_host [JObj (value_response (JStr "body"))])
            "https://steamloopback.host/index.html" (listed "Tab1" "1"))
     = Raise (KeyError k)).
Proof.
  apply (get_steam_resource_value (tab1_host [JObj (value_response (JStr "body"))])
           "https://steamloopback.host/index.html" (listed "Tab1" "1")
           [] (value_response (JStr "body")) [] Closed).
  - reflexivity.
  - split; [constructor|reflexivity].
Defined.

(** ** The functions of the module *)

(** [evaluate_js], managing its socket, on a stream that closes before the
    response. *)
Lemma evaluate_js_managed_closed h js run_async (self : Tab) frames :
  ws_connect h (ws_url self) = (frames, Closed) ->
  Forall (fun m => unsolicited (read_cmd_id self + 1) m = true) frames ->
  fst (evaluate_js h js run_async true true self) = Ret JNull.
Proof.
  intros Hws Hall. apply all_unsolicited in Hall.
  rewrite <- (entered_cmd_id h true) in Hall.
  unfold evaluate_js.
  rewrite (bind_step _ _ _ _ _ (enter_socket h true self)).
  erewrite bind_step.
  2:{ eapply send_closed; [apply entered_websocket|reflexivity|..].
      - simpl. by rewrite Hws.
      - simpl. by rewrite Hws. }
  erewrite bind_step; [|by eapply (leave_socket_exact h true self)].
  reflexivity.
Qed.

Lemma evaluate_js_managed_reply h js run_async (self : Tab) noise reply rest e :
  ws_connect h (ws_url self) = (noise ++ reply :: rest, e) ->
  answered (read_cmd_id self + 1) noise reply ->
  fst (evaluate_js h js run_async true true self) = Ret reply.
Proof.
  intros Hws Hans.
  apply (managed_command_answered h (evaluate_command js run_async) true self
           {| ws_inbound := fst (ws_connect h (ws_url self));
              ws_end := snd (ws_connect h (ws_url self));
              ws_closed := false; ws_log := [] |} noise reply rest).
  - apply entered_websocket.
  - reflexivity.
  - simpl. by rewrite Hws.
  - exact Hans.
Qed.

Lemma listed_tab_fresh h fuel trace pre tab post :
  get_tabs h fuel = Some (Ok (pre ++ tab :: post), trace) ->
  read_cmd_id tab = 0.
Proof.
  intros Htabs. pose proof (get_tabs_fresh h fuel _ trace Htabs) as Hfresh.
  apply Forall_app in Hfresh as [_ Hfresh].
  apply Forall_cons in Hfresh as [(_ & _ & Hc) _].
  unfold read_cmd_id. by rewrite Hc.
Qed.

(** X10: [inject_to_tab] evaluates the script on the first tab with the
    title, over a connection of its own, and returns the host's response to
    that evaluation.  It handles no error: when no tab has the title the
    [ValueError] of [get_tab] reaches the caller, and so does any exception
    of [get_tabs]. *)
Theorem inject_to_tab_result (h : host) (tab_name js : string) (run_async : bool)
    (fuel : nat) (r : result (list Tab)) (trace : list effect) :
  get_tabs h fuel = Some (r, trace) ->
  match r with
  | Err e => inject_to_tab h tab_name js run_async fuel = Some (Raise e, trace)
  | Ok tabs =>
      (Forall (fun x => title x <> JStr tab_name) tabs ->
       inject_to_tab h tab_name js run_async fuel
       = Some (Raise (ValueError ("Tab " +:+ tab_name +:+ " not found")), trace)) /\
      (forall pre tab post noise reply rest e,
         tabs = pre ++ tab :: post ->
         Forall (fun x => title x <> JStr tab_name) pre ->
         title tab = JStr tab_name ->
         ws_connect h (ws_url tab) = (noise ++ reply :: rest, e) ->
         answered 1 noise reply ->
         inject_to_tab h tab_name js run_async fuel = Some (Ret reply, trace))
  end.
Proof.
  intros Htabs. destruct r as [tabs|e].
  - split.
    + intros Hno. unfold inject_to_tab.
      by rewrite (get_tab_not_found h tab_name fuel trace tabs Htabs Hno).
    + intros pre tab post noise reply rest e -> Hpre Htab Hws Hans.
      unfold inject_to_tab.
      rewrite (get_tab_found h tab_name fuel trace pre tab post Htabs Hpre Htab).
      rewrite (evaluate_js_managed_reply h js run_async tab noise reply rest e Hws);
        [done|].
      by rewrite (listed_tab_fresh h fuel trace pre tab post Htabs).
  - unfold inject_to_tab, get_tab. by rewrite Htabs.
Qed.

Lemma inject_to_tab_result_witness :
  inject_to_tab (tab1_host [JObj (value_response (JInt 2))]) "Tab1" "1+1" false 1
  = Some (Ret (JObj (value_response (JInt 2))), [HttpGet "http://localhost:8080/json"]) /\
  inject_to_tab (tab1_host []) "Tab2" "1+1" false 1
  = Some (Raise (ValueError "Tab Tab2 not found"), [HttpGet "http://localhost:8080/json"]).
Proof.
  destruct (inject_to_tab_result (tab1_host [JObj (value_response (JInt 2))])
              "Tab1" "1+1" false 1 (Ok [listed "Tab1" "1"])
              [HttpGet "http://localhost:8080/json"] eq_refl) as [_ Hfound].
  destruct (inject_to_tab_result (tab1_host []) "Tab2" "1+1" false 1
              (Ok [listed "Tab1" "1"])
              [HttpGet "http://localhost:8080/json"] eq_refl) as [Hnone _].
  split.
  - apply (Hfound [] (listed "Tab1" "1") [] [] (JObj (value_response (JInt 2)))
             [] Closed);
      [reflexivity|constructor|reflexivity|reflexivity|].
    split; [constructor|reflexivity].
  - apply Hnone. constructor; [discriminate|constructor].
Defined.

(** X11: [tab_has_element] handles the listing and the response exactly
    as [tab_has_global_var] does.  No tab with the title: [False], the
    [ValueError] being caught.  A tab with the title and a response on which
    [result] and [result.result], where present, are objects: the value
    under [result.result.value], or [False] when a key of the path is
    missing.  An exception of [get_tabs] that is not a [ValueError] reaches
    the caller. *)
Theorem tab_has_element_contract (h : host) (tab_name element_name : string)
    (fuel : nat) (r : result (list Tab)) (trace : list effect) :
  get_tabs h fuel = Some (r, trace) ->
  match r with
  | Err e =>
      tab_has_element h tab_name element_name fuel
      = Some (if is_ValueError e then Ret (JBool false) else Raise e, trace)
  | Ok tabs =>
      (Forall (fun x => title x <> JStr tab_name) tabs ->
       tab_has_element h tab_name element_name fuel = Some (Ret (JBool false), trace)) /\
      (forall pre tab post noise o rest e,
         tabs = pre ++ tab :: post ->
         Forall (fun x => title x <> JStr tab_name) pre ->
         title tab = JStr tab_name ->
         ws_connect h (ws_url tab) = (noise ++ JObj o :: rest, e) ->
         answered 1 noise (JObj o) ->
         object_path o = true ->
         tab_has_element h tab_name element_name fuel
         = Some (Ret (default (JBool false) (value_at o)), trace))
  end.
Proof.
  intros Htabs. destruct r as [tabs|e].
  - split.
    + intros Hno. unfold tab_has_element.
      by rewrite (get_tab_not_found h tab_name fuel trace tabs Htabs Hno).
    + intros pre tab post noise o rest e -> Hpre Htab Hws Hans Hpath.
      unfold tab_has_element.
      rewrite (get_tab_found h tab_name fuel trace pre tab post Htabs Hpre Htab).
      do 2 f_equal. unfold bind at 1.
      match goal with
      | |- context [evaluate_js h ?js false true true tab] =>
          pose proof (evaluate_js_managed_reply h js false tab noise (JObj o) rest e
                        Hws) as Hev;
          destruct (evaluate_js h js false true true tab) as [res st]
      end.
      rewrite (listed_tab_fresh h fuel trace pre tab post Htabs) in Hev.
      simpl in Hev. rewrite (Hev Hans). by rewrite result_value_object.
  - unfold tab_has_element, get_tab. rewrite Htabs.
    by destruct (is_ValueError e).
Qed.

Lemma tab_has_element_contract_witness :
  tab_has_element (tab1_host [JObj (value_response (JBool true))]) "Tab1" "root" 1
  = Some (Ret (JBool true), [HttpGet "http://localhost:8080/json"]) /\
  tab_has_element (tab1_host [response 1 []]) "Tab1" "root" 1
  = Some (Ret (JBool false), [HttpGet "http://localhost:8080/json"]) /\
  tab_has_element (tab1_host []) "Tab2" "root" 1
  = Some (Ret (JBool false), [HttpGet "http://localhost:8080/json"]).
Proof.
  destruct (tab_has_element_contract (tab1_host [JObj (value_response (JBool true))])
              "Tab1" "root" 1 (Ok [listed "Tab1" "1"])
              [HttpGet "http://localhost:8080/json"] eq_refl) as [_ Htrue].
  destruct (tab_has_element_contract (tab1_host [response 1 []])
              "Tab1" "root" 1 (Ok [listed "Tab1" "1"])
              [HttpGet "http://localhost:8080/json"] eq_refl) as [_ Hempty].
  destruct (tab_has_element_contract (tab1_host []) "Tab2" "root" 1
              (Ok [listed "Tab1" "1"])
              [HttpGet "http://localhost:8080/json"] eq_refl) as [Hnone _].
  split; [|split].
  - apply (Htrue [] (listed "Tab1" "1") [] [] (value_response (JBool true)) [] Closed);
      [reflexivity|constructor|reflexivity|reflexivity| |reflexivity].
    split; [constructor|reflexivity].
  - apply (Hempty [] (listed "Tab1" "1") [] []
             (dict [("id", JInt 1); ("result", JObj (dict []))]) [] Closed);
      [reflexivity|constructor|reflexivity|reflexivity| |reflexivity].
    split; [constructor|reflexivity].
  - apply Hnone. constructor; [discriminate|constructor].
Defined.

(** X12: when the tab is found but the host closes the connection before
    answering the evaluation, [evaluate_js] returns [None], and the test
    [["result" in res]] of the two existence checks raises [TypeError]
    instead of yielding [False]; [inject_to_tab] hands the [None] to its
    caller. *)
Theorem checks_raise_on_closed_stream (h : host) (tab_name name js : string)
    (run_async : bool) (fuel : nat) (trace : list effect)
    (pre : list Tab) (tab : Tab) (post : list Tab) (frames : list json) :
  get_tabs h fuel = Some (Ok (pre ++ tab :: post), trace) ->
  Forall (fun x => title x <> JStr tab_name) pre ->
  title tab = JStr tab_name ->
  ws_connect h (ws_url tab) = (frames, Closed) ->
  Forall (fun m => unsolicited 1 m = true) frames ->
  tab_has_global_var h tab_name name fuel = Some (Raise TypeError, trace) /\
  tab_has_element h tab_name name fuel = Some (Raise TypeError, trace) /\
  inject_to_tab h tab_name js run_async fuel = Some (Ret JNull, trace).
Proof.
  intros Htabs Hpre Htab Hws Hall.
  pose proof (listed_tab_fresh h fuel trace pre tab post Htabs) as Hc.
  assert (forall js ra, fst (evaluate_js h js ra true true tab) = Ret JNull) as Hev.
  { intros js' ra. apply (evaluate_js_managed_closed h js' ra tab frames Hws).
    by rewrite Hc. }
  unfold tab_has_global_var, tab_has_element, inject_to_tab.
  rewrite (get_tab_found h tab_name fuel trace pre tab post Htabs Hpre Htab).
  split; [|split].
  - do 2 f_equal. unfold bind.
    match goal with
    | |- context [evaluate_js h ?e false true true tab] =>
        specialize (Hev e false); destruct (evaluate_js h e false true true tab) as [res st]
    end.
    simpl in Hev. by subst res.
  - do 2 f_equal. unfold bind.
    match goal with
    | |- context [evaluate_js h ?e false true true tab] =>
        specialize (Hev e false); destruct (evaluate_js h e false true true tab) as [res st]
    end.
    simpl in Hev. by subst res.
  - by rewrite Hev.
Qed.

Lemma checks_raise_on_closed_stream_witness :
  tab_has_global_var (tab1_host [JObj (dict [("method", JStr "Inspector.detached")])])
    "Tab1" "foo" 1
  = Some (Raise TypeError, [HttpGet "http://localhost:8080/json"]) /\
  tab_has_element (tab1_host [JObj (dict [("method", JStr "Inspector.detached")])])
    "Tab1" "foo" 1
  = Some (Raise TypeError, [HttpGet "http://localhost:8080/json"]) /\
  inject_to_tab (tab1_host [JObj (dict [("method", JStr "Inspector.detached")])])
    "Tab1" "1+1" false 1
  = Some (Ret JNull, [HttpGet "http://localhost:8080/json"]).
Proof.
  apply (checks_raise_on_closed_stream
           (tab1_host [JObj (dict [("method", JStr "Inspector.detached")])])
           "Tab1" "foo" "1+1" false 1 [HttpGet "http://localhost:8080/json"]
           [] (listed "Tab1" "1") []
           [JObj (dict [("method", JStr "Inspector.detached")])]).
  - reflexivity.
  - constructor.
  - reflexivity.
  - reflexivity.
  - repeat constructor.
Defined.

(** ** The reload workflow without a breakpoint id *)

Lemma breakpoint_missing n reply :
  responds_to n reply = true ->
  breakpoint_of reply = None ->
  exists e,
    (r ← py_getitem reply "result"; py_getitem r "breakpointId") = Err e /\
    (e = KeyError "result" \/ e = KeyError "breakpointId" \/ e = TypeError).
Proof.
  destruct reply as [| | | | | |o]; simpl; try discriminate.
  intros _. destruct (o !! "result") as [[| | | | | |r]|]; simpl; eauto.
  destruct (r !! "breakpointId"); [discriminate|eauto].
Qed.

(** X13: when the host's response to
    [Debugger.setInstrumentationBreakpoint] holds no
    [result.breakpointId] (an error reply, say), [reload_and_evaluate] still
    reloads the page and sends the three evaluations, and then raises on
    the subscript of line 124 ([KeyError], or [TypeError] if [result] is not
    an object).  [Debugger.removeBreakpoint], [Debugger.resume] and
    [Debugger.disable] are never sent, and the connection is left open even
    with [manage_socket=True]. *)
Theorem reload_stops_without_breakpoint_id (h : host) (js : string)
    (manage_socket : bool) (self : Tab) (w : websocket_t)
    (n1 n2 n3 rest : list json) (r1 r2 r3 : json) :
  websocket (entered h manage_socket self) = Some w ->
  ws_closed w = false ->
  ws_inbound w = n1 ++ r1 :: n2 ++ r2 :: n3 ++ r3 :: rest ->
  answered (read_cmd_id self + 1) n1 r1 ->
  answered (read_cmd_id self + 2) n2 r2 ->
  answered (read_cmd_id self + 3) n3 r3 ->
  breakpoint_of r2 = None ->
  let c := read_cmd_id self in
  let run := reload_and_evaluate h js manage_socket self in
  (exists e, fst run = Raise e /\
             (e = KeyError "result" \/ e = KeyError "breakpointId" \/ e = TypeError)) /\
  exists w' : websocket_t,
    websocket (snd run) = Some w' /\
    ws_closed w' = false /\
    ws_inbound w' = rest /\
    commands (ws_log w') =
      commands (ws_log w)
      ++ [numbered (c + 1) debugger_enable;
          numbered (c + 2) set_breakpoint;
          numbered (c + 3) page_reload;
          numbered (c + 4) (runtime_evaluate js);
          numbered (c + 5) (runtime_evaluate js);
          numbered (c + 6) (runtime_evaluate js)].
Proof.
  intros Hw Hopen Hin H1 H2 H3 Hbp c run.
  destruct (breakpoint_missing _ r2 (proj2 H2) Hbp) as (e & Hchain & He).
  subst run. unfold reload_and_evaluate.
  assert (read_cmd_id (entered h manage_socket self) = c) as Hc
    by apply entered_cmd_id.
  change (read_cmd_id self) with c in H1, H2, H3. clearbody c.
  rewrite (bind_step _ _ _ _ _ (enter_socket h manage_socket self)).
  set (s := entered h manage_socket self) in *.
  awaited (c + 1) n1 r1. awaited (c + 2) n2 r2. awaited (c + 3) n3 r3.
  erewrite bind_step;
    [|simpl for_range;
      forgotten (c + 4); forgotten (c + 5); forgotten (c + 6); reflexivity].
  rewrite Hchain. unfold bind at 1. cbn [of_result raise fst snd].
  split; [by exists e|].
  eexists. split; [reflexivity|]. split; [exact Hopen|]. split; [reflexivity|].
  unfold advanced; cbn [ws_log].
  repeat (rewrite ?commands_app, ?commands_received; simpl).
  rewrite <- !(assoc_L (++)). reflexivity.
Qed.

Lemma reload_stops_without_breakpoint_id_witness :
  (exists e, fst (reload_and_evaluate prompt_host "inject()" false
                    (blank_tab (Some refused_breakpoint_socket))) = Raise e /\
             (e = KeyError "result" \/ e = KeyError "breakpointId" \/ e = TypeError)) /\
  exists w' : websocket_t,
    websocket (snd (reload_and_evaluate prompt_host "inject()" false
                      (blank_tab (Some refused_breakpoint_socket)))) = Some w' /\
    ws_closed w' = false /\
    ws_inbound w' = [] /\
    commands (ws_log w') =
      [numbered 1 debugger_enable;
       numbered 2 set_breakpoint;
       numbered 3 page_reload;
       numbered 4 (runtime_evaluate "inject()");
       numbered 5 (runtime_evaluate "inject()");
       numbered 6 (runtime_evaluate "inject()")].
Proof.
  apply (reload_stops_without_breakpoint_id prompt_host "inject()" false
           (blank_tab (Some refused_breakpoint_socket)) refused_breakpoint_socket
           [] [] [] [] (response 1 []) (error_reply 2) (response 3 [])).
  - reflexivity.
  - reflexivity.
  - reflexivity.
  - split; [constructor|reflexivity].
  - split; [constructor|reflexivity].
  - split; [constructor|reflexivity].
  - reflexivity.
Defined.

(** ** Discovery: what is retried and what is not *)

Lemma get_tabs_loop_stops h n : forall r fuel k trace,
  (forall j, (j < n)%nat -> http_get h (k + j)%nat = Err ClientConnectorError) ->
  http_get h (k + n)%nat = r ->
  match r with Err e => is_ClientConnectorError e = false | Ok _ => True end ->
  (n < fuel)%nat ->
  get_tabs_loop h fuel k trace = Some (r, trace ++ retry_trace n).
Proof.
  induction n as [|n IH]; intros r fuel k trace Hfail Hr Hstop Hfuel.
  - destruct fuel as [|fuel]; [lia|]. simpl.
    rewrite Nat.add_0_r in Hr. rewrite Hr.
    destruct r as [res|e]; [done|]. by rewrite Hstop.
  - destruct fuel as [|fuel]; [lia|]. simpl.
    rewrite <- (Nat.add_0_r k) at 1. rewrite Hfail by lia. simpl.
    rewrite (IH r fuel (S k)); [|intros j Hj|..|done|lia].
    + unfold retry_trace. simpl. by rewrite <- !(assoc_L (++)).
    + replace (S k + j)%nat with (k + S j)%nat by lia. apply Hfail. lia.
    + by replace (S k + n)%nat with (k + S n)%nat by lia.
Qed.

(** X14: only a refused connection is retried.  When, after [n] refusals,
    [web.get] raises anything else, [get_tabs] raises it at once: it has
    slept after each refusal but not after this failure, and makes no
    further request. *)
Theorem get_tabs_other_error_not_retried (h : host) (n : nat) (e : exn) (fuel : nat) :
  (forall k, (k < n)%nat -> http_get h k = Err ClientConnectorError) ->
  http_get h n = Err e ->
  is_ClientConnectorError e = false ->
  (n < fuel)%nat ->
  get_tabs h fuel = Some (Err e, retry_trace n) /\
  sleeps (retry_trace n) = replicate n 5.
Proof.
  intros Hfail He Hne Hfuel. split.
  - unfold get_tabs.
    by rewrite (get_tabs_loop_stops h n (Err e) fuel 0 []).
  - unfold retry_trace, sleeps. rewrite omap_app. simpl.
    rewrite (right_id_L [] (++)).
    clear. induction n as [|n IH]; [done|]. simpl. f_equal. exact IH.
Qed.

Lemma get_tabs_other_error_not_retried_witness :
  get_tabs erroring_host 5
  = Some (Err ClientError, [HttpGet "http://localhost:8080/json"; Sleep 5;
                            HttpGet "http://localhost:8080/json"]) /\
  sleeps (retry_trace 1) = [5].
Proof.
  apply (get_tabs_other_error_not_retried erroring_host 1 ClientError 5).
  - intros k Hk. destruct k as [|k]; [reflexivity|lia].
  - reflexivity.
  - reflexivity.
  - lia.
Defined.

Lemma get_tabs_loop_refused h fuel : forall k trace,
  (forall j, http_get h j = Err ClientConnectorError) ->
  get_tabs_loop h fuel k trace = None.
Proof.
  induction fuel as [|fuel IH]; intros k trace Hall; [done|].
  simpl. rewrite Hall. simpl. by apply IH.
Qed.

(** X15: there is no bound on the retries.  Against a host that refuses
    every connection the loop of [get_tabs] is still running after any
    number of iterations, and so are [get_tab], [inject_to_tab] and the two
    existence checks, which all start with it. *)
Theorem discovery_never_gives_up (h : host) (tab_name name js : string)
    (run_async : bool) (fuel : nat) :
  (forall k, http_get h k = Err ClientConnectorError) ->
  get_tabs h fuel = None /\
  get_tab h tab_name fuel = None /\
  inject_to_tab h tab_name js run_async fuel = None /\
  tab_has_global_var h tab_name name fuel = None /\
  tab_has_element h tab_name name fuel = None.
Proof.
  intros Hall.
  assert (get_tabs h fuel = None) as Htabs.
  { unfold get_tabs. by rewrite get_tabs_loop_refused. }
  assert (get_tab h tab_name fuel = None) as Htab.
  { unfold get_tab. by rewrite Htabs. }
  unfold inject_to_tab, tab_has_global_var, tab_has_element.
  by rewrite Htab.
Qed.

Lemma discovery_never_gives_up_witness :
  get_tabs refusing_host 50 = None /\
  get_tab refusing_host "SP" 50 = None /\
  inject_to_tab refusing_host "SP" "1+1" false 50 = None /\
  tab_has_global_var refusing_host "SP" "foo" 50 = None /\
  tab_has_element refusing_host "SP" "foo" 50 = None.
Proof.
  apply (discovery_never_gives_up refusing_host "SP" "foo" "1+1" false 50).
  intros k. reflexivity.
Defined.

(** ** Entries of the listing *)

Lemma Tab_init_describes entry tab : Tab_init entry = Ok tab -> describes entry tab.
Proof.
  unfold Tab_init. destruct entry as [| | | | | |o]; simpl; try discriminate.
  destruct (o !! "title") as [t|] eqn:Ht; simpl; [|discriminate].
  destruct (o !! "id") as [i|] eqn:Hi; simpl; [|discriminate].
  destruct (o !! "webSocketDebuggerUrl") as [u|] eqn:Hu; simpl; [|discriminate].
  intros [= <-]. by exists o.
Qed.

(** X16: [Tab.__init__] succeeds exactly on a JSON object that has the
    keys [title], [id] and [webSocketDebuggerUrl]: it copies their values
    and starts without connection, client or counter of its own.  Any other
    field of the entry is ignored. *)
Theorem Tab_init_exactly_descriptors (entry : json) (tab : Tab)
    (o : gmap string json) (k : string) (v : json) :
  (Tab_init entry = Ok tab <-> describes entry tab) /\
  (k <> "title" -> k <> "id" -> k <> "webSocketDebuggerUrl" ->
   Tab_init (JObj (<[k := v]> o)) = Tab_init (JObj o)).
Proof.
  split; [split; [apply Tab_init_describes|apply describes_init]|].
  intros Ht Hi Hu. unfold Tab_init; simpl.
  by rewrite !lookup_insert_ne.
Qed.

Lemma comprehension_fails {A B : Type} (f : A -> result B) good ys bad post e :
  comprehension f good = Ok ys ->
  f bad = Err e ->
  comprehension f (good ++ bad :: post) = Err e.
Proof.
  revert ys. induction good as [|x good IH]; intros ys; simpl.
  - intros _ Hbad. by rewrite Hbad.
  - destruct (f x) as [y|]; simpl; [|discriminate].
    destruct (comprehension f good) as [ys'|] eqn:Hgood; simpl; [|discriminate].
    intros _ Hbad. by rewrite (IH ys' eq_refl Hbad).
Qed.

(** X17: one entry that cannot be made into a [Tab] fails the whole
    listing.  When the entries before it are descriptors, an entry that is
    an object lacking one of the three fields makes [get_tabs] raise
    [KeyError] for the first field missing, and an entry that is not an
    object makes it raise [TypeError]; the tabs already built are lost and
    the entries behind are not looked at. *)
Theorem get_tabs_bad_entry (h : host) (n : nat) (res : http_response) (fuel : nat)
    (good : list json) (tabs : list Tab) (bad : json) (post : list json) :
  reachable_after h n res ->
  (n < fuel)%nat ->
  status res = 200 ->
  resp_json res = Ok (JArr (good ++ bad :: post)) ->
  Forall2 describes good tabs ->
  (forall o k, bad = JObj o -> missing_field o = Some k ->
     get_tabs h fuel = Some (Err (KeyError k), retry_trace n)) /\
  ((forall o, bad <> JObj o) ->
   get_tabs h fuel = Some (Err TypeError, retry_trace n)).
Proof.
  intros Hreach Hfuel Hs Hj Hgood.
  rewrite (get_tabs_reachable h n res fuel Hreach Hfuel).
  unfold tabs_of_response. rewrite Hs, Z.eqb_refl, Hj. simpl.
  pose proof (comprehension_describes _ _ Hgood) as Hc.
  split.
  - intros o k -> Hk.
    rewrite (comprehension_fails Tab_init good tabs (JObj o) post (KeyError k) Hc);
      [done|].
    unfold missing_field in Hk. unfold Tab_init; simpl.
    destruct (o !! "title"); simpl; [|by injection Hk as <-].
    destruct (o !! "id"); simpl; [|by injection Hk as <-].
    destruct (o !! "webSocketDebuggerUrl"); simpl; [discriminate|by injection Hk as <-].
  - intros Hno.
    rewrite (comprehension_fails Tab_init good tabs bad post TypeError Hc); [done|].
    destruct bad as [| | | | | |o]; try done. by destruct (Hno o).
Qed.

Lemma get_tabs_bad_entry_witness :
  get_tabs partial_host 1
  = Some (Err (KeyError "webSocketDebuggerUrl"), [HttpGet "http://localhost:8080/json"]).
Proof.
  destruct (get_tabs_bad_entry partial_host 0
              {| status := 200; resp_text := "";
                 resp_json := Ok (JArr [descriptor "A" "1";
                                        JObj (dict [("title", JStr "B");
                                                    ("id", JStr "2")])]) |}
              1 [descriptor "A" "1"] [listed "A" "1"]
              (JObj (dict [("title", JStr "B"); ("id", JStr "2")])) [])
    as [Hkey _].
  - split; [intros k Hk; lia|reflexivity].
  - lia.
  - reflexivity.
  - reflexivity.
  - constructor; [|constructor].
    exists (dict [("title", JStr "A"); ("id", JStr "1");
                  ("webSocketDebuggerUrl", JStr "ws://localhost:8080/1")]).
    split; [reflexivity|]. split; [reflexivity|]. split; [reflexivity|].
    split; [reflexivity|]. split; [reflexivity|]. split; reflexivity.
  - apply (Hkey (dict [("title", JStr "B"); ("id", JStr "2")])
             "webSocketDebuggerUrl"); reflexivity.
Defined.

(** X18: a 200 response whose body is not an array is iterated all the
    same.  The empty object and the empty string give the empty listing,
    without error; a non-empty object or string is iterated by key or by
    character, and [Tab.__init__] raises [TypeError] on the first; [null], a
    number or a boolean cannot be iterated and raise [TypeError] too. *)
Theorem get_tabs_body_not_array (h : host) (n : nat) (res : http_response)
    (fuel : nat) (body : json) :
  reachable_after h n res ->
  (n < fuel)%nat ->
  status res = 200 ->
  resp_json res = Ok body ->
  (forall entries, body <> JArr entries) ->
  get_tabs h fuel
  = Some (if iterates_empty body then Ok [] else Err TypeError, retry_trace n).
Proof.
  intros Hreach Hfuel Hs Hj Hna.
  rewrite (get_tabs_reachable h n res fuel Hreach Hfuel).
  unfold tabs_of_response. rewrite Hs, Z.eqb_refl, Hj. simpl.
  destruct body as [| | | |s|l|o]; simpl; try done.
  - destruct s as [|c s]; [done|]. simpl.
    first [done|by rewrite bool_decide_eq_false_2].
  - by destruct (Hna l).
  - case_bool_decide as Ho.
    + subst o. by rewrite map_to_list_empty.
    + destruct (map_to_list o) as [|[k v] kvs] eqn:Hl; [|done].
      by apply map_to_list_empty_iff in Hl.
Qed.

Lemma get_tabs_body_not_array_witness :
  get_tabs (body_host (JStr "")) 1
  = Some (Ok [], [HttpGet "http://localhost:8080/json"]) /\
  get_tabs (body_host JNull) 1
  = Some (Err TypeError, [HttpGet "http://localhost:8080/json"]).
Proof.
  split.
  - apply (get_tabs_body_not_array (body_host (JStr "")) 0
             {| status := 200; resp_text := ""; resp_json := Ok (JStr "") |} 1
             (JStr "")).
    + split; [intros k Hk; lia|reflexivity].
    + lia.
    + reflexivity.
    + reflexivity.
    + discriminate.
  - apply (get_tabs_body_not_array (body_host JNull) 0
             {| status := 200; resp_text := ""; resp_json := Ok JNull |} 1 JNull).
    + split; [intros k Hk; lia|reflexivity].
    + lia.
    + reflexivity.
    + reflexivity.
    + discriminate.
Defined.

(** ** Connections that are not closed *)

Lemma bind_raise {A B : Type} (m : M A) (k : A -> M B) (self self' : Tab) (e : exn) :
  m self = (Raise e, self') -> bind m k self = (Raise e, self').
Proof. intros Hm. unfold bind. by rewrite Hm. Qed.

(** X19: [evaluate_js] closes the socket it opened only on the way out of
    a command that returned.  When the awaited command raises on a frame it
    cannot read, the exception leaves [evaluate_js] with the client session
    and the connection still open. *)
Theorem evaluate_js_leaves_socket_open (h : host) (js : string) (run_async : bool)
    (self : Tab) (pre : list json) (m : json) (rest : list json) (e : ending) :
  ws_connect h (ws_url self) = (pre ++ m :: rest, e) ->
  Forall (fun x => unsolicited (read_cmd_id self + 1) x = true \/ inert x = true) pre ->
  unreadable m = true ->
  let run := evaluate_js h js run_async true true self in
  fst run = Raise TypeError /\
  client (snd run) = Some {| session_closed := false |} /\
  exists w' : websocket_t,
    websocket (snd run) = Some w' /\ ws_closed w' = false /\ ws_inbound w' = rest.
Proof.
  intros Hws Hpre Hm run. subst run.
  assert (Forall (fun x => is_reply (read_cmd_id (entered h true self) + 1) x
                           = Ok false) pre) as Hskip.
  { rewrite entered_cmd_id. eapply Forall_impl; [exact Hpre|]. intros x [Hx|Hx].
    - by apply is_reply_unsolicited.
    - by apply is_reply_inert. }
  assert (evaluate_js h js run_async true true self
          = (Raise TypeError,
             session (entered h true self) (read_cmd_id (entered h true self) + 1)
               (advanced {| ws_inbound := fst (ws_connect h (ws_url self));
                            ws_end := snd (ws_connect h (ws_url self));
                            ws_closed := false; ws_log := [] |}
                  [Sent (numbered (read_cmd_id (entered h true self) + 1)
                           (evaluate_command js run_async))]
                  (pre ++ [m]) rest))) as Hrun.
  { unfold evaluate_js.
    rewrite (bind_step _ _ _ _ _ (enter_socket h true self)).
    apply bind_raise.
    apply send_fault;
      [apply entered_websocket|reflexivity|simpl; by rewrite Hws|exact Hskip
      |by apply is_reply_unreadable]. }
  rewrite Hrun. split; [done|]. split.
  - apply entered_client.
  - eexists. split; [reflexivity|]. split; reflexivity.
Qed.

Lemma evaluate_js_leaves_socket_open_witness :
  fst (evaluate_js (tab1_host [JNull]) "1+1" false true true (listed "Tab1" "1"))
  = Raise TypeError /\
  client (snd (evaluate_js (tab1_host [JNull]) "1+1" false true true
                 (listed "Tab1" "1")))
  = Some {| session_closed := false |} /\
  exists w' : websocket_t,
    websocket (snd (evaluate_js (tab1_host [JNull]) "1+1" false true true
                      (listed "Tab1" "1"))) = Some w' /\
    ws_closed w' = false /\ ws_inbound w' = [].
Proof.
  apply (evaluate_js_leaves_socket_open (tab1_host [JNull]) "1+1" false
           (listed "Tab1" "1") [] JNull [] Closed).
  - reflexivity.
  - constructor.
  - reflexivity.
Defined.

(** X20: [enable] and [disable] write [Page.enable] and [Page.disable]
    with consecutive ids and read nothing: called one after the other on an
    open connection they leave every inbound frame, their own responses
    included, for a later awaited command to pass over. *)
Theorem enable_disable_read_nothing (self : Tab) (w : websocket_t) :
  websocket self = Some w ->
  ws_closed w = false ->
  let run := (enable ;; disable) self in
  fst run = Ret tt /\
  read_cmd_id (snd run) = read_cmd_id self + 2 /\
  exists w' : websocket_t,
    websocket (snd run) = Some w' /\
    ws_closed w' = false /\
    ws_inbound w' = ws_inbound w /\
    ws_log w'
    = ws_log w ++ [Sent (numbered (read_cmd_id self + 1) page_enable);
                   Sent (numbered (read_cmd_id self + 2) page_disable)].
Proof.
  intros Hw Hopen run. subst run. unfold enable, disable.
  erewrite bind_step.
  2:{ erewrite bind_step;
        [|by apply (send_forget_at (read_cmd_id self + 1))].
      reflexivity. }
  erewrite bind_step;
    [|eapply (send_forget_at (read_cmd_id self + 2));
      [reflexivity|exact Hopen|rewrite session_cmd_id; lia]].
  unfold ret. cbn [fst snd].
  split; [done|]. split; [done|].
  eexists. split; [reflexivity|]. split; [exact Hopen|]. split; [reflexivity|].
  simpl. by rewrite <- !(assoc_L (++)).
Qed.

Lemma enable_disable_read_nothing_witness :
  fst ((enable ;; disable) (blank_tab (Some answering_socket))) = Ret tt /\
  read_cmd_id (snd ((enable ;; disable) (blank_tab (Some answering_socket)))) = 2 /\
  exists w' : websocket_t,
    websocket (snd ((enable ;; disable) (blank_tab (Some answering_socket))))
    = Some w' /\
    ws_closed w' = false /\
    ws_inbound w' = ws_inbound answering_socket /\
    ws_log w' = [Sent (numbered 1 page_enable); Sent (numbered 2 page_disable)].
Proof.
  apply (enable_disable_read_nothing (blank_tab (Some answering_socket))
           answering_socket).
  - reflexivity.
  - reflexivity.
Defined.
